(** * Image-processing backend (app.py): a shallow embedding

    The Flask application of app.py exposes three POST handlers
    (remove_background, edit_background, resize_image) built on two helpers
    (decode_image, encode_image).  This development embeds those five
    functions, together with the parts of the Python runtime and of the
    imaging library that decide their behaviour:

    - [Py]      : str/int/float primitives of the interpreter that the
                  handlers call (int(s), int(s, 16), str.lstrip, slicing,
                  int / int, int * float, int(float));
    - [Base64]  : base64.b64encode and base64.b64decode (binascii's
                  b2a_base64 and a2b_base64 in the default, non-strict mode);
    - [PIL]     : the RGBA raster, Image.new, Image.paste and
                  Image.alpha_composite, and the interface [Imaging] of the
                  operations that are taken as given (the PNG codec, mode
                  conversion, Lanczos resampling, rembg's remove);
    - [Flask]   : request.form / request.files and jsonify responses;
    - [App]     : the functions of app.py themselves;
    - [Ref]     : a small executable instance of [Imaging].                *)

From Stdlib Require Import ZArith List Bool Lia.
From Stdlib Require Import Strings.String Strings.Ascii Strings.Byte.
From Stdlib Require Import Floats.SpecFloat.
Import ListNotations.

Local Open Scope string_scope.
Local Open Scope list_scope.
Local Open Scope Z_scope.

(* ===================================================================== *)
(** ** Exceptions *)

(** A computation that either returns a value or raises an exception; the
    exception is represented by the text that [str(e)] would give. *)
Inductive Exc (A : Type) : Type :=
| Return (a : A)
| Raise (msg : string).

Arguments Return {A} a.
Arguments Raise {A} msg.

Definition bind {A B : Type} (c : Exc A) (k : A -> Exc B) : Exc B :=
  match c with
  | Return a => k a
  | Raise msg => Raise msg
  end.

Declare Scope exc_scope.
Delimit Scope exc_scope with exc.
Notation "x <- c ;; k" := (bind c (fun x => k))
  (at level 61, c at next level, right associativity) : exc_scope.

(** [try: c except Exception: return None] *)
Definition except_None {A : Type} (c : Exc A) : option A :=
  match c with
  | Return a => Some a
  | Raise _ => None
  end.

(** An [option]-valued primitive used where an exception may escape. *)
Definition or_raise {A : Type} (o : option A) (msg : string) : Exc A :=
  match o with
  | Some a => Return a
  | None => Raise msg
  end.

(* ===================================================================== *)
(** ** Python primitives *)

Module Py.

(** A [str] is a [string]; characters above 127 stand for the Latin-1
    code points of the same number.  [bytes] is [list byte]. *)

Definition ord (c : ascii) : Z := Z.of_N (N_of_ascii c).

Definition chr (z : Z) : ascii := ascii_of_N (Z.to_N z).

Definition byte_val (b : byte) : Z := Z.of_N (Byte.to_N b).

(** Store into an 8-bit cell: the value modulo 256. *)
Definition to_byte (z : Z) : byte := byte_of_ascii (chr (z mod 256)).

(** Truthiness of an optional string: [None] and [""] are falsy. *)
Definition truthy (o : option string) : bool :=
  match o with
  | Some (String _ _) => true
  | _ => false
  end.

(** [s.lstrip('#')]-style stripping of every leading [c]. *)
Fixpoint lstrip (c : ascii) (s : string) : string :=
  match s with
  | String a s' => if Ascii.eqb a c then lstrip c s' else s
  | EmptyString => EmptyString
  end.

(** [s[i:j]] for [0 <= i <= j]: out-of-range bounds are clamped. *)
Definition slice (s : string) (i j : nat) : string :=
  substring i (Nat.min (j - i) (String.length s - i)) s.

(** *** int(str, base) : PyLong_FromUnicodeObject / PyLong_FromString *)

(** C-locale white space (Py_ISSPACE). *)
Definition Py_ISSPACE (c : ascii) : bool :=
  let n := ord c in (n =? 32) || ((9 <=? n) && (n <=? 13)).

(** Unicode white space among the code points 127..255. *)
Definition Py_UNICODE_ISSPACE_high (c : ascii) : bool :=
  let n := ord c in (n =? 133) || (n =? 160).

Definition is_ascii (s : list ascii) : bool :=
  forallb (fun c => ord c <? 128) s.

(** The non-ASCII branch of _PyUnicode_TransformDecimalAndSpaceToASCII:
    white space becomes a blank; at the first other character (no
    Latin-1 code point above 126 is a decimal digit) a question mark is
    written and the copy stops. *)
Fixpoint transform_chars (s : list ascii) : list ascii :=
  match s with
  | [] => []
  | c :: s' =>
      if ord c <? 127 then c :: transform_chars s'
      else if Py_UNICODE_ISSPACE_high c then " "%char :: transform_chars s'
      else ["?"%char]
  end.

Definition TransformDecimalAndSpaceToASCII (s : list ascii) : list ascii :=
  if is_ascii s then s else transform_chars s.

(** _PyLong_DigitValue: 37 for a character that is no digit in any base. *)
Definition DigitValue (c : ascii) : Z :=
  let n := ord c in
  if (48 <=? n) && (n <=? 57) then n - 48
  else if (97 <=? n) && (n <=? 122) then n - 87
  else if (65 <=? n) && (n <=? 90) then n - 55
  else 37.

Fixpoint skip_space (s : list ascii) : list ascii :=
  match s with
  | c :: s' => if Py_ISSPACE c then skip_space s' else s
  | [] => []
  end.

(** The digit scan shared by long_from_binary_base and
    long_from_non_binary_base: digits and single underscores; [None] on
    a doubled or trailing underscore.  Returns the value, the number of
    digits, the number of characters consumed and the rest. *)
Fixpoint scan_digits (base : Z) (s : list ascii) (prev_us : bool)
         (acc digits consumed : Z) : option (Z * Z * Z * list ascii) :=
  match s with
  | c :: s' =>
      if Ascii.eqb c "_"%char then
        if prev_us then None
        else scan_digits base s' true acc digits (consumed + 1)
      else if DigitValue c <? base then
        scan_digits base s' false (acc * base + DigitValue c)
                    (digits + 1) (consumed + 1)
      else if prev_us then None
      else Some (acc, digits, consumed, s)
  | [] => if prev_us then None else Some (acc, digits, consumed, [])
  end.

(** A hexadecimal digit. *)
Definition is_hex (c : ascii) : bool := DigitValue c <? 16.

(** Every character, by code point. *)
Definition all_chars : list ascii := map ascii_of_nat (seq 0 256).

(** sys.int_info.default_max_str_digits *)
Definition max_str_digits : Z := 4300.

Definition is_binary_base (base : Z) : bool :=
  Z.land base (base - 1) =? 0.

Definition PyLong_FromString (s : list ascii) (base : Z) : option Z :=
  let s1 := skip_space s in
  let '(sign, s2) :=
    match s1 with
    | "+"%char :: r => (1, r)
    | "-"%char :: r => (-1, r)
    | _ => (1, s1)
    end in
  let s3 :=
    match s2 with
    | "0"%char :: x :: r =>
        if (base =? 16) && (Ascii.eqb x "x"%char || Ascii.eqb x "X"%char)
        then match r with
             | "_"%char :: r' => r'
             | _ => r
             end
        else s2
    | _ => s2
    end in
  match s3 with
  | "_"%char :: _ => None
  | _ =>
      match scan_digits base s3 false 0 0 0 with
      | None => None
      | Some (v, digits, consumed, rest) =>
          if negb (is_binary_base base) && (max_str_digits <? digits)
          then None
          else if consumed =? 0 then None
          else match skip_space rest with
               | [] => Some (sign * v)
               | _ :: _ => None
               end
      end
  end.

(** [int(s, base)] for a [str] argument; [None] is ValueError. *)
Definition int (s : string) (base : Z) : option Z :=
  PyLong_FromString
    (TransformDecimalAndSpaceToASCII (list_ascii_of_string s)) base.

(** *** float: IEEE 754 binary64 *)

Definition prec : Z := 53.
Definition emax : Z := 1024.

(** [float(n)] for an int: correctly rounded, OverflowError when the
    rounded value is not finite. *)
Definition float_of_int (n : Z) : Exc spec_float :=
  match binary_normalize prec emax n 0 false with
  | S754_infinity _ => Raise "int too large to convert to float"
  | f => Return f
  end.

(** [a / b] on ints (long_true_divide): the correctly rounded quotient. *)
Definition int_truediv (a b : Z) : Exc spec_float :=
  match a, b with
  | _, 0 => Raise "division by zero"
  | 0, _ => Return (S754_zero false)
  | _, _ =>
      let sa := a <? 0 in
      let sb := b <? 0 in
      match SFdiv prec emax
              (S754_finite sa (Z.to_pos (Z.abs a)) 0)
              (S754_finite sb (Z.to_pos (Z.abs b)) 0) with
      | S754_infinity _ =>
          Raise "integer division result too large for a float"
      | f => Return f
      end
  end.

(** [n * x] for an int [n] and a float [x]. *)
Definition int_mul_float (n : Z) (x : spec_float) : Exc spec_float :=
  (f <- float_of_int n ;; Return (SFmul prec emax f x))%exc.

(** [int(x)] for a float: truncation toward zero. *)
Definition int_of_float (x : spec_float) : Exc Z :=
  match x with
  | S754_zero _ => Return 0
  | S754_finite s m e =>
      let a := match e with
               | Zneg p => Z.shiftr (Zpos m) (Zpos p)
               | _ => Z.shiftl (Zpos m) e
               end in
      Return (if s then - a else a)
  | S754_infinity _ => Raise "cannot convert float infinity to integer"
  | S754_nan => Raise "cannot convert float NaN to integer"
  end.

End Py.

(* ===================================================================== *)
(** ** base64.b64encode / base64.b64decode *)

Module Base64.

Definition table_b2a_base64 : string :=
  "ABCDEFGHIJKLMNOPQRSTUVWXYZabcdefghijklmnopqrstuvwxyz0123456789+/".

Definition BASE64_PAD : ascii := "="%char.

Definition b2a (i : Z) : ascii :=
  match String.get (Z.to_nat i) table_b2a_base64 with
  | Some c => c
  | None => BASE64_PAD
  end.

(** table_a2b_base64: 255 (the unsigned char -1) marks a character
    outside the alphabet; the pad character is entered as 0. *)
Definition table_a2b_base64 (c : ascii) : Z :=
  let n := Py.ord c in
  if (65 <=? n) && (n <=? 90) then n - 65
  else if (97 <=? n) && (n <=? 122) then n - 71
  else if (48 <=? n) && (n <=? 57) then n + 4
  else if n =? 43 then 62
  else if n =? 47 then 63
  else if n =? 61 then 0
  else 255.

(** The inner loop of b2a_base64: while (leftbits >= 6) emit a sextet. *)
Fixpoint drain (fuel : nat) (leftchar leftbits : Z) : list ascii * Z :=
  match fuel with
  | O => ([], leftbits)
  | S fuel' =>
      if 6 <=? leftbits then
        let this_ch := Z.land (Z.shiftr leftchar (leftbits - 6)) 63 in
        let '(cs, lb) := drain fuel' leftchar (leftbits - 6) in
        (b2a this_ch :: cs, lb)
      else ([], leftbits)
  end.

(** The outer loop of b2a_base64 over the input bytes and its tail;
    [leftchar] is an unsigned 32-bit accumulator. *)
Fixpoint b2a_loop (data : list byte) (leftchar leftbits : Z) : list ascii :=
  match data with
  | b :: data' =>
      let leftchar' :=
        Z.lor (Z.shiftl leftchar 8) (Py.byte_val b) mod 2 ^ 32 in
      let '(cs, lb) :=
        drain (Z.to_nat (leftbits + 8)) leftchar' (leftbits + 8) in
      cs ++ b2a_loop data' leftchar' lb
  | [] =>
      if leftbits =? 2 then
        [b2a (Z.shiftl (Z.land leftchar 3) 4); BASE64_PAD; BASE64_PAD]
      else if leftbits =? 4 then
        [b2a (Z.shiftl (Z.land leftchar 15) 2); BASE64_PAD]
      else []
  end.

(** [base64.b64encode(data).decode("utf-8")] *)
Definition b64encode (data : list byte) : string :=
  string_of_list_ascii (b2a_loop data 0 0).

(** The loop of a2b_base64 with strict_mode off.  [None] is
    binascii.Error. *)
Fixpoint a2b_loop (s : list ascii) (quad_pos leftchar pads : Z)
  : option (list byte) :=
  match s with
  | [] => if quad_pos =? 0 then Some [] else None
  | c :: s' =>
      if Ascii.eqb c BASE64_PAD then
        if (2 <=? quad_pos) && (4 <=? quad_pos + (pads + 1)) then Some []
        else a2b_loop s' quad_pos leftchar
               (if 2 <=? quad_pos then pads + 1 else pads)
      else
        let this_ch := table_a2b_base64 c in
        if 64 <=? this_ch then a2b_loop s' quad_pos leftchar pads
        else if quad_pos =? 0 then a2b_loop s' 1 this_ch 0
        else if quad_pos =? 1 then
          option_map
            (cons (Py.to_byte
                     (Z.lor (Z.shiftl leftchar 2) (Z.shiftr this_ch 4))))
            (a2b_loop s' 2 (Z.land this_ch 15) 0)
        else if quad_pos =? 2 then
          option_map
            (cons (Py.to_byte
                     (Z.lor (Z.shiftl leftchar 4) (Z.shiftr this_ch 2))))
            (a2b_loop s' 3 (Z.land this_ch 3) 0)
        else
          option_map
            (cons (Py.to_byte (Z.lor (Z.shiftl leftchar 6) this_ch)))
            (a2b_loop s' 0 0 0)
  end.

(** [base64.b64decode(s)] for a [str]: a non-ASCII string is a
    ValueError, then a2b_base64 with validation off. *)
Definition b64decode (s : string) : option (list byte) :=
  let cs := list_ascii_of_string s in
  if Py.is_ascii cs then a2b_loop cs 0 0 0 else None.

(** The decoder run over a prefix [l] of its input: the bytes written and
    the state (quad_pos, leftchar, pads) in which the rest is read, or
    [None] when a pad sequence inside [l] ended the decoding. *)
Fixpoint a2b_run (l : list ascii) (quad_pos leftchar pads : Z)
  : list byte * option (Z * Z * Z) :=
  match l with
  | [] => ([], Some (quad_pos, leftchar, pads))
  | c :: l' =>
      if Ascii.eqb c BASE64_PAD then
        if (2 <=? quad_pos) && (4 <=? quad_pos + (pads + 1)) then ([], None)
        else a2b_run l' quad_pos leftchar
               (if 2 <=? quad_pos then pads + 1 else pads)
      else
        let this_ch := table_a2b_base64 c in
        if 64 <=? this_ch then a2b_run l' quad_pos leftchar pads
        else if quad_pos =? 0 then a2b_run l' 1 this_ch 0
        else if quad_pos =? 1 then
          let '(out, st) := a2b_run l' 2 (Z.land this_ch 15) 0 in
          (Py.to_byte (Z.lor (Z.shiftl leftchar 2) (Z.shiftr this_ch 4))
           :: out, st)
        else if quad_pos =? 2 then
          let '(out, st) := a2b_run l' 3 (Z.land this_ch 3) 0 in
          (Py.to_byte (Z.lor (Z.shiftl leftchar 4) (Z.shiftr this_ch 2))
           :: out, st)
        else
          let '(out, st) := a2b_run l' 0 0 0 in
          (Py.to_byte (Z.lor (Z.shiftl leftchar 6) this_ch) :: out, st)
  end.

(** Base64 text in the sense of RFC 4648: quads of alphabet characters,
    the last of which may end in one or two pad characters. *)
Definition in_alphabet (c : ascii) : bool :=
  negb (Ascii.eqb c BASE64_PAD) && (table_a2b_base64 c <? 64).

Fixpoint canonical_quads (l : list ascii) : bool :=
  match l with
  | [] => true
  | c1 :: c2 :: c3 :: c4 :: l' =>
      in_alphabet c1 && in_alphabet c2
      && match l' with
         | [] =>
             (in_alphabet c3 && (in_alphabet c4 || Ascii.eqb c4 BASE64_PAD))
             || (Ascii.eqb c3 BASE64_PAD && Ascii.eqb c4 BASE64_PAD)
         | _ :: _ => in_alphabet c3 && in_alphabet c4 && canonical_quads l'
         end
  | _ => false
  end.

Definition canonical (s : string) : bool :=
  canonical_quads (list_ascii_of_string s).

(** The accumulator of b2a_base64 after one more byte. *)
Definition next_leftchar (lc : Z) (x : byte) : Z :=
  Z.lor (Z.shiftl lc 8) (Py.byte_val x) mod 2 ^ 32.

(** The four sextets of three bytes. *)
Definition sextet1 (x : byte) : Z := Py.byte_val x / 4.
Definition sextet2 (x y : byte) : Z :=
  Py.byte_val x mod 4 * 16 + Py.byte_val y / 16.
Definition sextet3 (y z : byte) : Z :=
  Py.byte_val y mod 16 * 4 + Py.byte_val z / 64.
Definition sextet4 (z : byte) : Z := Py.byte_val z mod 64.

(** What the proofs need of one entry of the alphabet. *)
Definition sextet_check (q : Z) : bool :=
  negb (Ascii.eqb (b2a q) BASE64_PAD)
  && (table_a2b_base64 (b2a q) =? q)
  && (Py.ord (b2a q) <? 128).

End Base64.

(* ===================================================================== *)
(** ** The imaging library *)

Module PIL.

Inductive Mode : Set :=
| M_1 | M_L | M_LA | M_P | M_RGB | M_RGBA | M_CMYK | M_YCbCr | M_I | M_F.

Definition Mode_eqb (m n : Mode) : bool :=
  match m, n with
  | M_1, M_1 | M_L, M_L | M_LA, M_LA | M_P, M_P | M_RGB, M_RGB
  | M_RGBA, M_RGBA | M_CMYK, M_CMYK | M_YCbCr, M_YCbCr
  | M_I, M_I | M_F, M_F => true
  | _, _ => false
  end.

(** One 8-bit RGBA pixel. *)
Record rgba8 : Set :=
  mk_rgba8 { px_r : byte; px_g : byte; px_b : byte; px_a : byte }.

(** An in-memory image: its mode, its size (width, height) and its
    pixels, row after row. *)
Record Image : Set := mk_Image {
  mode : Mode;
  size : Z * Z;
  data : list rgba8
}.

Definition width (im : Image) : Z := fst (size im).
Definition height (im : Image) : Z := snd (size im).

(** The raster holds exactly width * height pixels. *)
Definition well_formed (im : Image) : Prop :=
  0 <= width im /\ 0 <= height im /\
  Z.of_nat (List.length (data im)) = width im * height im.

Definition size_eqb (s t : Z * Z) : bool :=
  (fst s =? fst t) && (snd s =? snd t).

(** CLIP8: saturate an int to 0..255. *)
Definition CLIP8 (v : Z) : byte :=
  Py.to_byte (if v <? 0 then 0 else if 255 <? v then 255 else v).

(** The ink of a colour tuple (r, g, b, a) in an RGBA image. *)
Definition getink (color : Z * Z * Z * Z) : rgba8 :=
  let '(cr, cg, cb, ca) := color in
  mk_rgba8 (CLIP8 cr) (CLIP8 cg) (CLIP8 cb) (CLIP8 ca).

Definition zero_pixel : rgba8 := mk_rgba8 x00 x00 x00 x00.

(** [Image.new("RGBA", size, color)]; without a colour the image is
    filled with zeros. *)
Definition new_RGBA (sz : Z * Z) (color : option (Z * Z * Z * Z))
  : Exc Image :=
  if (fst sz <? 0) || (snd sz <? 0)
  then Raise "Width and height must be >= 0"
  else
    let ink := match color with
               | Some c => getink c
               | None => zero_pixel
               end in
    Return (mk_Image M_RGBA sz (repeat ink (Z.to_nat (fst sz * snd sz)))).

(** [dst.paste(src, (0, 0))] without a mask: the pixels of [src] replace
    those of [dst] on the part of [dst] that [src] covers. *)
Definition paste (dst src : Image) : Image :=
  let w := Z.to_nat (width dst) in
  let sw := Z.to_nat (width src) in
  let sh := Z.to_nat (height src) in
  mk_Image (mode dst) (size dst)
    (map (fun i =>
            let x := Nat.modulo i w in
            let y := Nat.div i w in
            if (x <? sw)%nat && (y <? sh)%nat
            then nth (y * sw + x) (data src) zero_pixel
            else nth i (data dst) zero_pixel)
         (seq 0 (List.length (data dst)))).

(** *** Image.alpha_composite (ImagingAlphaComposite) *)

Definition PRECISION_BITS : Z := 7.

Definition SHIFTFORDIV255 (v : Z) : Z :=
  Z.shiftr (Z.shiftr v 8 + v) 8.

Definition u32 (v : Z) : Z := v mod 2 ^ 32.

(** One colour band of the blended pixel: a rounded division by 255 of
    the weighted sum, with PRECISION_BITS extra bits. *)
Definition blend_band (coef1 coef2 : Z) (s d : byte) : byte :=
  let tmp := u32 (Py.byte_val s * coef1 + Py.byte_val d * coef2) in
  Py.to_byte
    (Z.shiftr (SHIFTFORDIV255 (u32 (tmp + Z.shiftl 128 PRECISION_BITS)))
              PRECISION_BITS).

(** One pixel of the result: [src] over [dst], in the integer arithmetic
    of the library (32-bit unsigned intermediates, 8-bit stores). *)
Definition composite_pixel (dst src : rgba8) : rgba8 :=
  let sa := Py.byte_val (px_a src) in
  if sa =? 0 then dst
  else
    let blend := u32 (Py.byte_val (px_a dst) * (255 - sa)) in
    let outa255 := u32 (sa * 255 + blend) in
    let coef1 :=
      u32 (u32 (sa * 255 * 255 * Z.shiftl 1 PRECISION_BITS) / outa255) in
    let coef2 := u32 (255 * Z.shiftl 1 PRECISION_BITS - coef1) in
    mk_rgba8 (blend_band coef1 coef2 (px_r src) (px_r dst))
             (blend_band coef1 coef2 (px_g src) (px_g dst))
             (blend_band coef1 coef2 (px_b src) (px_b dst))
             (Py.to_byte (SHIFTFORDIV255 (u32 (outa255 + 128)))).

Fixpoint map2 {A B C : Type} (f : A -> B -> C) (l : list A) (m : list B)
  : list C :=
  match l, m with
  | x :: l', y :: m' => f x y :: map2 f l' m'
  | _, _ => []
  end.

(** [Image.alpha_composite(im1, im2)]: [im2] over [im1]. *)
Definition alpha_composite (im1 im2 : Image) : Exc Image :=
  if negb (Mode_eqb (mode im1) M_RGBA) then Raise "image has wrong mode"
  else if negb (Mode_eqb (mode im1) (mode im2))
          || negb (size_eqb (size im1) (size im2))
  then Raise "images do not match"
  else Return (mk_Image M_RGBA (size im1)
                 (map2 composite_pixel (data im1) (data im2))).

(** *** Alpha-over, as a formula

    The compositing of a pixel over an opaque background, written from
    the formula and not from the library's integer code: each colour band
    is the mean of the source and the background weighted by the source's
    alpha, rounded to the nearest integer, and the result is opaque. *)
Definition weighted_mean (s d alpha : Z) : Z :=
  (s * alpha + d * (255 - alpha) + 127) / 255.

(** A colour component brought into 0..255. *)
Definition clamp255 (v : Z) : Z := Z.max 0 (Z.min 255 v).

Definition over_opaque (colour : Z * Z * Z) (p : rgba8) : rgba8 :=
  let '(cr, cg, cb) := colour in
  let alpha := Py.byte_val (px_a p) in
  mk_rgba8
    (Py.to_byte (weighted_mean (Py.byte_val (px_r p)) (clamp255 cr) alpha))
    (Py.to_byte (weighted_mean (Py.byte_val (px_g p)) (clamp255 cg) alpha))
    (Py.to_byte (weighted_mean (Py.byte_val (px_b p)) (clamp255 cb) alpha))
    xff.

(** *** Operations taken as given

    The image codecs, mode conversion, Lanczos resampling and the
    background-removal model are used through this interface. *)
Class Imaging : Type := {
  (** [Image.open(io.BytesIO(b))] *)
  Image_open : list byte -> Exc Image;
  (** [im.convert(mode)] *)
  convert : Image -> Mode -> Exc Image;
  (** [im.save(buffer, format="PNG")], giving the buffer's value *)
  save_PNG : Image -> Exc (list byte);
  (** [im.resize(size, Image.Resampling.LANCZOS)] *)
  resize_LANCZOS : Image -> Z * Z -> Exc Image;
  (** [rembg.remove(im)] *)
  remove : Image -> Exc Image
}.

(** What the handlers rely on. *)
Record ImagingLaws (I : Imaging) : Prop := {
  (** an opened image is a raster of its size *)
  open_well_formed :
    forall bs im, Image_open bs = Return im -> well_formed im;
  (** a conversion keeps the size and has the requested mode *)
  convert_spec :
    forall im m im',
      well_formed im -> convert im m = Return im' ->
      well_formed im' /\ mode im' = m /\ size im' = size im;
  (** converting to the image's own mode copies it *)
  convert_same :
    forall im, convert im (mode im) = Return im;
  (** PNG is lossless on RGBA rasters *)
  PNG_lossless :
    forall im bs,
      well_formed im -> mode im = M_RGBA ->
      save_PNG im = Return bs -> Image_open bs = Return im;
  (** a resized image has the requested size and the mode it had *)
  resize_spec :
    forall im sz im',
      well_formed im -> resize_LANCZOS im sz = Return im' ->
      well_formed im' /\ size im' = sz /\ mode im' = mode im;
  (** resampling to an empty size is refused *)
  resize_positive :
    forall im sz im',
      resize_LANCZOS im sz = Return im' -> size im <> sz ->
      1 <= fst sz /\ 1 <= snd sz
}.

End PIL.

(* ===================================================================== *)
(** ** Requests and responses *)

Module Flask.

(** An uploaded file of request.files. *)
Record FileStorage : Set := mk_FileStorage {
  filename : string;
  stream : list byte
}.

(** A request: the form fields and the uploaded files, in order. *)
Record Request : Set := mk_Request {
  form : list (string * string);
  files : list (string * FileStorage)
}.

(** [d.get(key)]: the first value stored under [key]. *)
Fixpoint get {V : Type} (key : string) (d : list (string * V)) : option V :=
  match d with
  | [] => None
  | (k, v) :: d' => if String.eqb k key then Some v else get key d'
  end.

(** [key in d] *)
Definition contains {V : Type} (key : string) (d : list (string * V))
  : bool :=
  match get key d with
  | Some _ => true
  | None => false
  end.

(** Truthiness of an optional upload: a FileStorage is true when its
    filename is not empty. *)
Definition file_truthy (f : option FileStorage) : bool :=
  match f with
  | Some fs => Py.truthy (Some (filename fs))
  | None => false
  end.

(** [jsonify(obj), status] *)
Record Response : Set := mk_Response {
  json : list (string * string);
  status : Z
}.

Definition jsonify (obj : list (string * string)) (code : Z) : Response :=
  mk_Response obj code.

End Flask.

(* ===================================================================== *)
(** ** app.py *)

Module App.

Import PIL Flask.

(** The value of an optional string when it is truthy. *)
Definition nonempty (o : option string) : option string :=
  if Py.truthy o then o else None.

(** The uploaded file when it is truthy. *)
Definition uploaded (f : option FileStorage) : option FileStorage :=
  if file_truthy f then f else None.

(** The value of an optional int when it is truthy. *)
Definition nonzero (o : option Z) : option Z :=
  match o with
  | Some n => if n =? 0 then None else Some n
  | None => None
  end.

(** [try: body except Exception as e: handler(str(e))]; the body ends in
    a return statement. *)
Definition try_except (body : Exc Response) (handler : string -> Response)
  : Response :=
  match body with
  | Return response => response
  | Raise e => handler e
  end.

Definition DATA_URI_PREFIX : string := "data:image/png;base64,".

(** [tuple(int(hex_color[i:i+2], 16) for i in (0, 2, 4)) + (255,)];
    [None] is the ValueError of the first slice that int rejects. *)
Definition rgb_color (color : string) : option (Z * Z * Z * Z) :=
  let hex_color := Py.lstrip "#"%char color in
  match Py.int (Py.slice hex_color 0 2) 16 with
  | None => None
  | Some cr =>
      match Py.int (Py.slice hex_color 2 4) 16 with
      | None => None
      | Some cg =>
          match Py.int (Py.slice hex_color 4 6) 16 with
          | None => None
          | Some cb => Some (cr, cg, cb, 255)
          end
      end
  end.

(** One of the two blocks of resize_image that read a dimension:
    [inl] is the 400 response returned at once, [inr] the value of the
    variable after the block. *)
Definition read_dimension (field : option string)
           (not_positive invalid : string) : Response + option Z :=
  match nonempty field with
  | Some text =>
      match Py.int text 10 with
      | Some n =>
          if n <=? 0 then inl (jsonify [("error", not_positive)] 400)
          else inr (Some n)
      | None => inl (jsonify [("error", invalid)] 400)
      end
  | None => inr None
  end.

(** [int(n * (p / q))]: the dimension computed in the proportional
    branches of resize_image. *)
Definition scaled (n p q : Z) : Exc Z :=
  (aspect_ratio <- Py.int_truediv p q ;;
   product <- Py.int_mul_float n aspect_ratio ;;
   Py.int_of_float product)%exc.

(** A dimension text that resize_image must refuse: int rejects it or
    its value is not positive. *)
Definition not_positive_integer (text : string) : bool :=
  match Py.int text 10 with
  | Some n => n <=? 0
  | None => true
  end.

Section Handlers.

Context {I : Imaging}.

Definition decode_image (base64_string : string) : option Image :=
  except_None
    (image_bytes <- or_raise (Base64.b64decode base64_string)
                             "Incorrect padding" ;;
     opened <- Image_open image_bytes ;;
     convert opened M_RGBA)%exc.

(** The decoded bytes are no image that can be opened as RGBA. *)
Definition not_an_image (image_bytes : list byte) : Prop :=
  (exists e, Image_open image_bytes = Raise e)
  \/ (exists opened e,
        Image_open image_bytes = Return opened
        /\ convert opened M_RGBA = Raise e).

Definition encode_image (image : Image) : option string :=
  except_None
    (buffered <- save_PNG image ;;
     Return (DATA_URI_PREFIX ++ Base64.b64encode buffered)%string)%exc.

Definition remove_background (request : Request) : Response :=
  match get "image_data" (form request) with
  | None => jsonify [("error", "No image_data provided")] 400
  | Some image_data_b64 =>
      match decode_image image_data_b64 with
      | None => jsonify [("error", "Invalid image data")] 400
      | Some input_image =>
          try_except
            (output_image <- remove input_image ;;
             match encode_image output_image with
             | None =>
                 Return (jsonify
                   [("error", "Failed to encode processed image")] 500)
             | Some processed_image_b64 =>
                 Return (jsonify
                   [("image_data", processed_image_b64);
                    ("message", "Background removed successfully!")] 200)
             end)%exc
            (fun e => jsonify
               [("error", "Failed to remove background");
                ("details", e)] 500)
      end
  end.

Definition edit_background (request : Request) : Response :=
  match get "image_data" (form request) with
  | None => jsonify [("error", "No image_data provided")] 400
  | Some image_data_b64 =>
      match decode_image image_data_b64 with
      | None => jsonify [("error", "Invalid current image data")] 400
      | Some current_image =>
          let color := get "color" (form request) in
          let background_image_file :=
            get "background_image" (files request) in
          if negb (Py.truthy color)
             && negb (file_truthy background_image_file)
          then jsonify
                 [("error",
                   "Either 'color' or 'background_image' must be provided")]
                 400
          else
            try_except
              (blank <- new_RGBA (size current_image) None ;;
               chosen <-
                 match uploaded background_image_file, nonempty color with
                 | Some file, _ =>
                     opened <- Image_open (stream file) ;;
                     bg_image <- convert opened M_RGBA ;;
                     bg_image <-
                       resize_LANCZOS bg_image (size current_image) ;;
                     Return (inr (paste blank bg_image))
                 | None, Some c =>
                     match rgb_color c with
                     | None =>
                         Return (inl (jsonify
                           [("error", "Invalid color hex code")] 400))
                     | Some rgba =>
                         new_background <-
                           new_RGBA (size current_image) (Some rgba) ;;
                         Return (inr new_background)
                     end
                 | None, None => Return (inr blank)
                 end ;;
               match chosen with
               | inl response => Return response
               | inr new_background =>
                   final_image <-
                     alpha_composite new_background current_image ;;
                   match encode_image final_image with
                   | None =>
                       Return (jsonify
                         [("error", "Failed to encode processed image")]
                         500)
                   | Some processed_image_b64 =>
                       Return (jsonify
                         [("image_data", processed_image_b64);
                          ("message", "Background edited successfully!")]
                         200)
                   end
               end)%exc
              (fun e => jsonify
                 [("error", "Failed to edit background");
                  ("details", e)] 500)
      end
  end.

(** The part of resize_image after both dimensions have been read. *)
Definition resize_to (current_image : Image) (width height : option Z)
  : Response :=
  match width, height with
  | None, None =>
      match encode_image current_image with
      | None => jsonify [("error", "Failed to encode image")] 500
      | Some processed_image_b64 =>
          jsonify
            [("image_data", processed_image_b64);
             ("message",
              "No dimensions provided, image returned as is.")] 200
      end
  | _, _ =>
      try_except
        (let '(original_width, original_height) := size current_image in
         resized_image <-
           match nonzero width, nonzero height with
           | Some w, Some h => resize_LANCZOS current_image (w, h)
           | Some w, None =>
               new_height <- scaled w original_height original_width ;;
               resize_LANCZOS current_image (w, new_height)
           | None, Some h =>
               new_width <- scaled h original_width original_height ;;
               resize_LANCZOS current_image (new_width, h)
           | None, None =>
               Raise "local variable 'resized_image' referenced before assignment"
           end ;;
         match encode_image resized_image with
         | None =>
             Return (jsonify
               [("error", "Failed to encode processed image")] 500)
         | Some processed_image_b64 =>
             Return (jsonify
               [("image_data", processed_image_b64);
                ("message", "Image resized successfully!")] 200)
         end)%exc
        (fun e => jsonify
           [("error", "Failed to resize image"); ("details", e)] 500)
  end.

Definition resize_image (request : Request) : Response :=
  match get "image_data" (form request) with
  | None => jsonify [("error", "No image_data provided")] 400
  | Some image_data_b64 =>
      match decode_image image_data_b64 with
      | None => jsonify [("error", "Invalid current image data")] 400
      | Some current_image =>
          let width_str := get "width" (form request) in
          let height_str := get "height" (form request) in
          match read_dimension width_str
                  "Width must be a positive integer"
                  "Invalid width parameter" with
          | inl response => response
          | inr width =>
              match read_dimension height_str
                      "Height must be a positive integer"
                      "Invalid height parameter" with
              | inl response => response
              | inr height => resize_to current_image width height
              end
          end
      end
  end.

(** *** The try blocks

    The three try blocks on their own, as computations that return the
    response of their return statement or raise: what the except clauses
    of the handlers catch. *)

(** The try block of remove_background. *)
Definition remove_background_try (input_image : Image) : Exc Response :=
  (output_image <- remove input_image ;;
   match encode_image output_image with
   | None =>
       Return (jsonify [("error", "Failed to encode processed image")] 500)
   | Some processed_image_b64 =>
       Return (jsonify
         [("image_data", processed_image_b64);
          ("message", "Background removed successfully!")] 200)
   end)%exc.

(** The try block of edit_background. *)
Definition edit_background_try
           (current_image : Image) (color : option string)
           (background_image_file : option FileStorage) : Exc Response :=
  (blank <- new_RGBA (size current_image) None ;;
   chosen <-
     match uploaded background_image_file, nonempty color with
     | Some file, _ =>
         opened <- Image_open (stream file) ;;
         bg_image <- convert opened M_RGBA ;;
         bg_image <- resize_LANCZOS bg_image (size current_image) ;;
         Return (inr (paste blank bg_image))
     | None, Some c =>
         match rgb_color c with
         | None =>
             Return (inl (jsonify [("error", "Invalid color hex code")] 400))
         | Some rgba =>
             new_background <- new_RGBA (size current_image) (Some rgba) ;;
             Return (inr new_background)
         end
     | None, None => Return (inr blank)
     end ;;
   match chosen with
   | inl response => Return response
   | inr new_background =>
       final_image <- alpha_composite new_background current_image ;;
       match encode_image final_image with
       | None =>
           Return (jsonify
             [("error", "Failed to encode processed image")] 500)
       | Some processed_image_b64 =>
           Return (jsonify
             [("image_data", processed_image_b64);
              ("message", "Background edited successfully!")] 200)
       end
   end)%exc.

(** The try block of resize_image. *)
Definition resize_image_try
           (current_image : Image) (width height : option Z) : Exc Response :=
  (let '(original_width, original_height) := size current_image in
   resized_image <-
     match nonzero width, nonzero height with
     | Some w, Some h => resize_LANCZOS current_image (w, h)
     | Some w, None =>
         new_height <- scaled w original_height original_width ;;
         resize_LANCZOS current_image (w, new_height)
     | None, Some h =>
         new_width <- scaled h original_width original_height ;;
         resize_LANCZOS current_image (new_width, h)
     | None, None =>
         Raise "local variable 'resized_image' referenced before assignment"
     end ;;
   match encode_image resized_image with
   | None =>
       Return (jsonify [("error", "Failed to encode processed image")] 500)
   | Some processed_image_b64 =>
       Return (jsonify
         [("image_data", processed_image_b64);
          ("message", "Image resized successfully!")] 200)
   end)%exc.

End Handlers.

(** The two shapes of an error body. *)
Definition only_error (response : Response) : Prop :=
  exists e, json response = [("error", e)].

Definition error_and_details (response : Response) : Prop :=
  exists e d, json response = [("error", e); ("details", d)].

End App.

(* ===================================================================== *)
(** ** A reference instance of the imaging interface

    An executable stand-in for the library: an uncompressed RGBA container
    behind the PNG signature, nearest-neighbour resampling, and a
    background remover that clears the pixels of the corner colour. *)

Module Ref.

Import PIL.

Definition signature : list byte :=
  [x89; x50; x4e; x47; x0d; x0a; x1a; x0a].

Definition be32 (v : Z) : list byte :=
  [Py.to_byte (Z.shiftr v 24); Py.to_byte (Z.shiftr v 16);
   Py.to_byte (Z.shiftr v 8); Py.to_byte v].

Definition of_be32 (b3 b2 b1 b0 : byte) : Z :=
  Py.byte_val b3 * 2 ^ 24 + Py.byte_val b2 * 2 ^ 16
  + Py.byte_val b1 * 2 ^ 8 + Py.byte_val b0.

Definition pixel_bytes (p : rgba8) : list byte :=
  [px_r p; px_g p; px_b p; px_a p].

Fixpoint pixels_of_bytes (bs : list byte) : option (list rgba8) :=
  match bs with
  | [] => Some []
  | cr :: cg :: cb :: ca :: rest =>
      option_map (cons (mk_rgba8 cr cg cb ca)) (pixels_of_bytes rest)
  | _ => None
  end.

Definition bytes_eqb (l m : list byte) : bool :=
  (List.length l =? List.length m)%nat
  && forallb (fun p => Byte.eqb (fst p) (snd p)) (combine l m).

Definition well_formedb (im : Image) : bool :=
  (0 <=? width im) && (0 <=? height im)
  && (Z.of_nat (List.length (data im)) =? width im * height im).

Definition ref_save (im : Image) : Exc (list byte) :=
  if Mode_eqb (mode im) M_RGBA && well_formedb im
     && (width im <? 2 ^ 31) && (height im <? 2 ^ 31)
  then Return (signature ++ be32 (width im) ++ be32 (height im)
               ++ flat_map pixel_bytes (data im))
  else Raise "cannot write image as PNG".

Definition ref_open (bs : list byte) : Exc Image :=
  if bytes_eqb (firstn 8 bs) signature then
    match skipn 8 bs with
    | w3 :: w2 :: w1 :: w0 :: h3 :: h2 :: h1 :: h0 :: rest =>
        let w := of_be32 w3 w2 w1 w0 in
        let h := of_be32 h3 h2 h1 h0 in
        match pixels_of_bytes rest with
        | Some px =>
            if Z.of_nat (List.length px) =? w * h
            then Return (mk_Image M_RGBA (w, h) px)
            else Raise "image file is truncated"
        | None => Raise "image file is truncated"
        end
    | _ => Raise "cannot identify image file"
    end
  else Raise "cannot identify image file".

Definition ref_convert (im : Image) (m : Mode) : Exc Image :=
  Return (mk_Image m (size im) (data im)).

Definition ref_resize (im : Image) (sz : Z * Z) : Exc Image :=
  if size_eqb (size im) sz then Return im
  else if (fst sz <? 1) || (snd sz <? 1)
  then Raise "height and width must be > 0"
  else
    let w := Z.to_nat (fst sz) in
    let h := Z.to_nat (snd sz) in
    let ow := Z.to_nat (width im) in
    let oh := Z.to_nat (height im) in
    Return (mk_Image (mode im) sz
              (map (fun i =>
                      let x := Nat.modulo i w in
                      let y := Nat.div i w in
                      nth (Nat.div (y * oh) h * ow + Nat.div (x * ow) w)
                          (data im) zero_pixel)
                   (seq 0 (Z.to_nat (fst sz * snd sz))))).

Definition same_colour (p q : rgba8) : bool :=
  Byte.eqb (px_r p) (px_r q) && Byte.eqb (px_g p) (px_g q)
  && Byte.eqb (px_b p) (px_b q).

Definition ref_remove (im : Image) : Exc Image :=
  match data im with
  | [] => Return im
  | corner :: _ =>
      Return (mk_Image (mode im) (size im)
                (map (fun p =>
                        if same_colour p corner
                        then mk_rgba8 (px_r p) (px_g p) (px_b p) x00
                        else p)
                     (data im)))
  end.

Definition imaging : Imaging := {|
  Image_open := ref_open;
  convert := ref_convert;
  save_PNG := ref_save;
  resize_LANCZOS := ref_resize;
  remove := ref_remove
|}.

(** The same library with an encoder that always fails, as when the
    output buffer cannot be allocated. *)
Definition failing_encoder : Imaging := {|
  Image_open := ref_open;
  convert := ref_convert;
  save_PNG := fun _ => Raise "out of memory";
  resize_LANCZOS := ref_resize;
  remove := ref_remove
|}.

(** The same library with a background remover that raises. *)
Definition failing_model : Imaging := {|
  Image_open := ref_open;
  convert := ref_convert;
  save_PNG := ref_save;
  resize_LANCZOS := ref_resize;
  remove := fun _ => Raise "model file not found"
|}.

(** Sample inputs: a raster of [w] x [h] pixels of one colour and the
    Base64 text of its encoding. *)
Definition solid (w h : Z) (p : rgba8) : Image :=
  mk_Image M_RGBA (w, h) (repeat p (Z.to_nat (w * h))).

Definition payload (im : Image) : string :=
  match ref_save im with
  | Return bs => Base64.b64encode bs
  | Raise _ => ""
  end.

(** A resize or edit request for the image [im] with further form fields
    and uploads. *)
Definition request_for (im : Image) (fields : list (string * string))
           (uploads : list (string * Flask.FileStorage)) : Flask.Request :=
  Flask.mk_Request (("image_data", payload im) :: fields) uploads.

Definition red : rgba8 := mk_rgba8 xff x00 x00 xff.
Definition opaque_blue : rgba8 := mk_rgba8 x00 x00 xff xff.
Definition clear_green : rgba8 := mk_rgba8 x00 xff x00 x00.

End Ref.

(* ===================================================================== *)
(** * Properties *)

(** ** Bytes and bit operations *)

Lemma byte_val_range (x : byte) : 0 <= Py.byte_val x < 256.
Proof.
  unfold Py.byte_val. pose proof (Byte.to_N_bounded x). lia.
Qed.

Lemma to_byte_val (x : byte) : Py.to_byte (Py.byte_val x) = x.
Proof.
  unfold Py.to_byte, Py.chr.
  rewrite Z.mod_small by apply byte_val_range.
  unfold Py.byte_val. rewrite N2Z.id, <- ascii_of_byte_via_N.
  apply byte_of_ascii_of_byte.
Qed.

Lemma byte_val_to_byte (z : Z) : Py.byte_val (Py.to_byte z) = z mod 256.
Proof.
  unfold Py.to_byte, Py.chr, Py.byte_val.
  pose proof (Z.mod_pos_bound z 256 eq_refl) as Hz.
  assert (Hn : (Z.to_N (z mod 256) < 256)%N) by lia.
  pose proof (byte_of_ascii_via_N (ascii_of_N (Z.to_N (z mod 256)))) as Hb.
  symmetry in Hb. apply Byte.to_of_N in Hb. rewrite Hb.
  rewrite N_ascii_embedding by exact Hn. lia.
Qed.

Lemma lor_shiftl_add (x y k : Z) :
  0 <= k -> 0 <= y < 2 ^ k -> Z.lor (Z.shiftl x k) y = x * 2 ^ k + y.
Proof.
  intros Hk Hy.
  rewrite <- (Z.add_lor_land (x * 2 ^ k) y), <- Z.shiftl_mul_pow2 by exact Hk.
  assert (Hland : Z.land (Z.shiftl x k) y = 0).
  { apply Z.bits_inj'. intros n Hn.
    rewrite Z.land_spec, Z.bits_0.
    destruct (Z.lt_ge_cases n k) as [Hlt | Hge].
    - rewrite Z.shiftl_spec_low by exact Hlt. reflexivity.
    - rewrite <- (Z.mod_small y (2 ^ k)) by exact Hy.
      rewrite Z.mod_pow2_bits_high by lia. apply andb_false_r. }
  rewrite Hland. lia.
Qed.

Lemma land_mask (x k : Z) : 0 <= k -> Z.land x (2 ^ k - 1) = x mod 2 ^ k.
Proof.
  intros Hk. rewrite <- Z.land_ones by exact Hk.
  f_equal. rewrite Z.ones_equiv. lia.
Qed.

Ltac divmod := Z.to_euclidean_division_equations; lia.

(** ** Base64 *)

Import Base64.

Ltac norm_pow :=
  change (2 ^ 2) with 4 in *; change (2 ^ 4) with 16 in *;
  change (2 ^ 6) with 64 in *; change (2 ^ 8) with 256 in *;
  change (2 ^ 32) with 4294967296 in *; change (2 ^ 0) with 1 in *.

Lemma b2a_loop_0 x d lc :
  b2a_loop (x :: d) lc 0 =
  b2a (Z.land (Z.shiftr (next_leftchar lc x) 2) 63)
  :: b2a_loop d (next_leftchar lc x) 2.
Proof. reflexivity. Qed.

Lemma b2a_loop_2 x d lc :
  b2a_loop (x :: d) lc 2 =
  b2a (Z.land (Z.shiftr (next_leftchar lc x) 4) 63)
  :: b2a_loop d (next_leftchar lc x) 4.
Proof. reflexivity. Qed.

Lemma b2a_loop_4 x d lc :
  b2a_loop (x :: d) lc 4 =
  b2a (Z.land (Z.shiftr (next_leftchar lc x) 6) 63)
  :: b2a (Z.land (Z.shiftr (next_leftchar lc x) 0) 63)
  :: b2a_loop d (next_leftchar lc x) 0.
Proof. reflexivity. Qed.

Lemma next_leftchar_arith lc x :
  next_leftchar lc x = (lc * 256 + Py.byte_val x) mod 4294967296.
Proof.
  unfold next_leftchar. pose proof (byte_val_range x).
  rewrite lor_shiftl_add by (norm_pow; lia). reflexivity.
Qed.

Lemma sextet_63 v k : 0 <= k -> Z.land (Z.shiftr v k) 63 = (v / 2 ^ k) mod 64.
Proof.
  intros. rewrite Z.shiftr_div_pow2 by assumption.
  apply (land_mask _ 6). lia.
Qed.

Lemma enc_1 lc x :
  Z.land (Z.shiftr (next_leftchar lc x) 2) 63 = Py.byte_val x / 4.
Proof.
  rewrite sextet_63, next_leftchar_arith by lia. norm_pow.
  pose proof (byte_val_range x). divmod.
Qed.

Lemma enc_2 lc x y :
  Z.land (Z.shiftr (next_leftchar (next_leftchar lc x) y) 4) 63 =
  Py.byte_val x mod 4 * 16 + Py.byte_val y / 16.
Proof.
  rewrite sextet_63, !next_leftchar_arith by lia. norm_pow.
  pose proof (byte_val_range x). pose proof (byte_val_range y). divmod.
Qed.

Lemma enc_3 lc y z :
  Z.land (Z.shiftr (next_leftchar (next_leftchar lc y) z) 6) 63 =
  Py.byte_val y mod 16 * 4 + Py.byte_val z / 64.
Proof.
  rewrite sextet_63, !next_leftchar_arith by lia. norm_pow.
  pose proof (byte_val_range z). pose proof (byte_val_range y). divmod.
Qed.

Lemma enc_4 lc z :
  Z.land (Z.shiftr (next_leftchar lc z) 0) 63 = Py.byte_val z mod 64.
Proof.
  rewrite sextet_63, !next_leftchar_arith by lia. norm_pow.
  pose proof (byte_val_range z). divmod.
Qed.

Lemma enc_tail_2 lc x :
  Z.shiftl (Z.land (next_leftchar lc x) 3) 4 = Py.byte_val x mod 4 * 16.
Proof.
  rewrite Z.shiftl_mul_pow2, (land_mask _ 2), next_leftchar_arith by lia.
  norm_pow. pose proof (byte_val_range x). divmod.
Qed.

Lemma enc_tail_4 lc y :
  Z.shiftl (Z.land (next_leftchar lc y) 15) 2 = Py.byte_val y mod 16 * 4.
Proof.
  rewrite Z.shiftl_mul_pow2, (land_mask _ 4), next_leftchar_arith by lia.
  norm_pow. pose proof (byte_val_range y). divmod.
Qed.

Lemma b2a_loop_three x y z d lc :
  exists lc',
    b2a_loop (x :: y :: z :: d) lc 0 =
    b2a (sextet1 x) :: b2a (sextet2 x y) :: b2a (sextet3 y z)
    :: b2a (sextet4 z) :: b2a_loop d lc' 0.
Proof.
  eexists. rewrite b2a_loop_0, b2a_loop_2, b2a_loop_4.
  rewrite enc_1, enc_2, enc_3, enc_4. reflexivity.
Qed.

Lemma b2a_loop_one x lc :
  b2a_loop [x] lc 0 =
  [b2a (sextet1 x); b2a (sextet2 x x00); BASE64_PAD; BASE64_PAD].
Proof.
  rewrite b2a_loop_0, enc_1. cbn [b2a_loop Z.eqb].
  rewrite enc_tail_2. unfold sextet2.
  change (Py.byte_val x00 / 16) with 0. rewrite Z.add_0_r. reflexivity.
Qed.

Lemma b2a_loop_two x y lc :
  b2a_loop [x; y] lc 0 =
  [b2a (sextet1 x); b2a (sextet2 x y); b2a (sextet3 y x00); BASE64_PAD].
Proof.
  rewrite b2a_loop_0, b2a_loop_2, enc_1, enc_2. cbn [b2a_loop Z.eqb Pos.eqb].
  rewrite enc_tail_4. unfold sextet3.
  change (Py.byte_val x00 / 64) with 0. rewrite Z.add_0_r. reflexivity.
Qed.

Lemma list_ind3 {A : Type} (P : list A -> Prop) :
  P [] -> (forall x, P [x]) -> (forall x y, P [x; y]) ->
  (forall x y z l, P l -> P (x :: y :: z :: l)) ->
  forall l, P l.
Proof.
  intros H0 H1 H2 H3 l.
  enough (H : P l /\ (forall x, P (x :: l)) /\ (forall x y, P (x :: y :: l)))
    by apply H.
  induction l as [| a l [IH0 [IH1 IH2]]].
  - auto.
  - repeat split; auto.
Qed.

Lemma sextet_check_all :
  forallb sextet_check (map Z.of_nat (seq 0 64)) = true.
Proof. vm_compute. reflexivity. Qed.

Lemma sextet_checked (q : Z) : 0 <= q < 64 -> sextet_check q = true.
Proof.
  intros Hq. pose proof sextet_check_all as Hall.
  rewrite forallb_forall in Hall. apply Hall.
  apply in_map_iff. exists (Z.to_nat q). split; [lia |].
  apply in_seq. lia.
Qed.

Lemma b2a_not_pad q : 0 <= q < 64 -> Ascii.eqb (b2a q) BASE64_PAD = false.
Proof.
  intros Hq. apply sextet_checked in Hq. unfold sextet_check in Hq.
  apply andb_prop in Hq as [Hq _]. apply andb_prop in Hq as [Hq _].
  now apply negb_true_iff.
Qed.

Lemma a2b_b2a q : 0 <= q < 64 -> table_a2b_base64 (b2a q) = q.
Proof.
  intros Hq. apply sextet_checked in Hq. unfold sextet_check in Hq.
  apply andb_prop in Hq as [Hq _]. apply andb_prop in Hq as [_ Hq].
  now apply Z.eqb_eq.
Qed.

Lemma b2a_ascii q : 0 <= q < 64 -> (Py.ord (b2a q) <? 128) = true.
Proof.
  intros Hq. apply sextet_checked in Hq. unfold sextet_check in Hq.
  now apply andb_prop in Hq as [_ Hq].
Qed.

(** One alphabet character through the decoder. *)
Lemma a2b_loop_sextet q s quad_pos leftchar pads :
  0 <= q < 64 ->
  a2b_loop (b2a q :: s) quad_pos leftchar pads =
  if quad_pos =? 0 then a2b_loop s 1 q 0
  else if quad_pos =? 1 then
    option_map (cons (Py.to_byte (Z.lor (Z.shiftl leftchar 2) (Z.shiftr q 4))))
               (a2b_loop s 2 (Z.land q 15) 0)
  else if quad_pos =? 2 then
    option_map (cons (Py.to_byte (Z.lor (Z.shiftl leftchar 4) (Z.shiftr q 2))))
               (a2b_loop s 3 (Z.land q 3) 0)
  else
    option_map (cons (Py.to_byte (Z.lor (Z.shiftl leftchar 6) q)))
               (a2b_loop s 0 0 0).
Proof.
  intros Hq. cbn [a2b_loop].
  rewrite b2a_not_pad, a2b_b2a by exact Hq.
  replace (64 <=? q) with false by (symmetry; apply Z.leb_gt; lia).
  reflexivity.
Qed.

Lemma sextet1_range x : 0 <= sextet1 x < 64.
Proof. unfold sextet1. pose proof (byte_val_range x). divmod. Qed.
Lemma sextet2_range x y : 0 <= sextet2 x y < 64.
Proof.
  unfold sextet2. pose proof (byte_val_range x). pose proof (byte_val_range y).
  divmod.
Qed.
Lemma sextet3_range y z : 0 <= sextet3 y z < 64.
Proof.
  unfold sextet3. pose proof (byte_val_range z). pose proof (byte_val_range y).
  divmod.
Qed.
Lemma sextet4_range z : 0 <= sextet4 z < 64.
Proof. unfold sextet4. pose proof (byte_val_range z). divmod. Qed.

Lemma dec_1 x y :
  Z.lor (Z.shiftl (sextet1 x) 2) (Z.shiftr (sextet2 x y) 4) = Py.byte_val x.
Proof.
  pose proof (sextet2_range x y) as H2. revert H2. unfold sextet1, sextet2.
  pose proof (byte_val_range x). pose proof (byte_val_range y). intros H2.
  rewrite Z.shiftr_div_pow2 by lia. norm_pow.
  rewrite lor_shiftl_add by (norm_pow; divmod). norm_pow. divmod.
Qed.

Lemma dec_2 x y z :
  Z.lor (Z.shiftl (Z.land (sextet2 x y) 15) 4) (Z.shiftr (sextet3 y z) 2)
  = Py.byte_val y.
Proof.
  unfold sextet2, sextet3.
  pose proof (byte_val_range x). pose proof (byte_val_range y).
  pose proof (byte_val_range z).
  rewrite Z.shiftr_div_pow2, (land_mask _ 4) by lia. norm_pow.
  rewrite lor_shiftl_add by (norm_pow; divmod). norm_pow. divmod.
Qed.

Lemma dec_3 y z :
  Z.lor (Z.shiftl (Z.land (sextet3 y z) 3) 6) (sextet4 z) = Py.byte_val z.
Proof.
  unfold sextet3, sextet4.
  pose proof (byte_val_range y). pose proof (byte_val_range z).
  rewrite (land_mask _ 2) by lia. norm_pow.
  rewrite lor_shiftl_add by (norm_pow; divmod). norm_pow. divmod.
Qed.

(** Four characters that encode three bytes, read from the start of a
    quad. *)
Lemma a2b_loop_quad x y z s leftchar pads :
  a2b_loop (b2a (sextet1 x) :: b2a (sextet2 x y) :: b2a (sextet3 y z)
            :: b2a (sextet4 z) :: s) 0 leftchar pads =
  option_map (fun l => x :: y :: z :: l) (a2b_loop s 0 0 0).
Proof.
  rewrite a2b_loop_sextet by apply sextet1_range. cbn [Z.eqb].
  rewrite a2b_loop_sextet by apply sextet2_range. cbn [Z.eqb Pos.eqb].
  rewrite a2b_loop_sextet by apply sextet3_range. cbn [Z.eqb Pos.eqb].
  rewrite a2b_loop_sextet by apply sextet4_range. cbn [Z.eqb Pos.eqb].
  rewrite dec_1, dec_2, dec_3, !to_byte_val.
  destruct (a2b_loop s 0 0 0); reflexivity.
Qed.

Lemma a2b_b2a_loop (bs : list byte) :
  forall lc, a2b_loop (b2a_loop bs lc 0) 0 0 0 = Some bs.
Proof.
  induction bs as [| x | x y | x y z bs IH] using list_ind3; intros lc.
  - reflexivity.
  - rewrite b2a_loop_one.
    rewrite a2b_loop_sextet by apply sextet1_range. cbn [Z.eqb].
    rewrite a2b_loop_sextet by apply sextet2_range.
    cbn [Z.eqb Pos.eqb a2b_loop].
    rewrite Ascii.eqb_refl, dec_1, to_byte_val. reflexivity.
  - rewrite b2a_loop_two.
    rewrite a2b_loop_sextet by apply sextet1_range. cbn [Z.eqb].
    rewrite a2b_loop_sextet by apply sextet2_range. cbn [Z.eqb Pos.eqb].
    rewrite a2b_loop_sextet by apply sextet3_range.
    cbn [Z.eqb Pos.eqb a2b_loop].
    rewrite Ascii.eqb_refl, dec_1, dec_2, !to_byte_val. reflexivity.
  - destruct (b2a_loop_three x y z bs lc) as [lc' ->].
    rewrite a2b_loop_quad, IH. reflexivity.
Qed.

Lemma b2a_loop_is_ascii (bs : list byte) :
  forall lc, Py.is_ascii (b2a_loop bs lc 0) = true.
Proof.
  induction bs as [| x | x y | x y z bs IH] using list_ind3; intros lc.
  - reflexivity.
  - rewrite b2a_loop_one. unfold Py.is_ascii. cbn [forallb].
    rewrite (b2a_ascii _ (sextet1_range x)), (b2a_ascii _ (sextet2_range x x00)).
    reflexivity.
  - rewrite b2a_loop_two. unfold Py.is_ascii. cbn [forallb].
    rewrite (b2a_ascii _ (sextet1_range x)), (b2a_ascii _ (sextet2_range x y)),
      (b2a_ascii _ (sextet3_range y x00)).
    reflexivity.
  - destruct (b2a_loop_three x y z bs lc) as [lc' ->].
    unfold Py.is_ascii in *. cbn [forallb].
    rewrite (b2a_ascii _ (sextet1_range x)), (b2a_ascii _ (sextet2_range x y)),
      (b2a_ascii _ (sextet3_range y z)), (b2a_ascii _ (sextet4_range z)), IH.
    reflexivity.
Qed.

(** Base64 text decodes to the bytes it encodes. *)
Lemma b64decode_b64encode (bs : list byte) :
  b64decode (b64encode bs) = Some bs.
Proof.
  unfold b64decode, b64encode.
  rewrite list_ascii_of_string_of_list_ascii, b2a_loop_is_ascii.
  apply a2b_b2a_loop.
Qed.

(** Read from the fourth position of a quad, Base64 text never ends on a
    quad boundary. *)
Lemma a2b_b2a_loop_shifted (bs : list byte) :
  forall lc leftchar, a2b_loop (b2a_loop bs lc 0) 3 leftchar 0 = None.
Proof.
  induction bs as [| x | x y | x y z bs IH] using list_ind3;
    intros lc leftchar.
  - reflexivity.
  - rewrite b2a_loop_one.
    rewrite a2b_loop_sextet by apply sextet1_range. cbn [Z.eqb Pos.eqb].
    rewrite a2b_loop_sextet by apply sextet2_range. reflexivity.
  - rewrite b2a_loop_two.
    rewrite a2b_loop_sextet by apply sextet1_range. cbn [Z.eqb Pos.eqb].
    rewrite a2b_loop_sextet by apply sextet2_range. cbn [Z.eqb Pos.eqb].
    rewrite a2b_loop_sextet by apply sextet3_range. reflexivity.
  - destruct (b2a_loop_three x y z bs lc) as [lc' ->].
    rewrite a2b_loop_sextet by apply sextet1_range. cbn [Z.eqb Pos.eqb].
    rewrite a2b_loop_sextet by apply sextet2_range. cbn [Z.eqb Pos.eqb].
    rewrite a2b_loop_sextet by apply sextet3_range. cbn [Z.eqb Pos.eqb].
    rewrite a2b_loop_sextet by apply sextet4_range. cbn [Z.eqb Pos.eqb].
    rewrite IH. reflexivity.
Qed.

Lemma list_ascii_of_string_app (s t : string) :
  list_ascii_of_string (s ++ t)%string
  = list_ascii_of_string s ++ list_ascii_of_string t.
Proof. induction s as [| c s IH]; cbn; [reflexivity | now rewrite IH]. Qed.


(** The decoder reads its input from left to right: after a prefix it
    continues in the state that [a2b_run] gives. *)
Lemma a2b_loop_app (l s : list ascii) :
  forall quad_pos leftchar pads,
    a2b_loop (l ++ s) quad_pos leftchar pads =
    match a2b_run l quad_pos leftchar pads with
    | (out, None) => Some out
    | (out, Some (qp, lc, p)) => option_map (app out) (a2b_loop s qp lc p)
    end.
Proof.
  induction l as [| c l IH]; intros quad_pos leftchar pads.
  - cbn [app a2b_run]. destruct (a2b_loop s quad_pos leftchar pads); reflexivity.
  - cbn [app a2b_loop a2b_run].
    destruct (Ascii.eqb c BASE64_PAD).
    + destruct ((2 <=? quad_pos) && (4 <=? quad_pos + (pads + 1)));
        [reflexivity | apply IH].
    + destruct (64 <=? table_a2b_base64 c); [apply IH |].
      destruct (quad_pos =? 0); [apply IH |].
      destruct (quad_pos =? 1);
        [| destruct (quad_pos =? 2)];
        rewrite IH;
        match goal with
        | |- context [a2b_run l ?q ?c ?p] =>
            destruct (a2b_run l q c p) as [out [[[qp lc'] p'] |]]
        end;
        cbn [option_map];
        try match goal with
        | |- context [a2b_loop s ?q ?c ?p] => destruct (a2b_loop s q c p)
        end; reflexivity.
Qed.

Lemma is_ascii_app (l m : list ascii) :
  Py.is_ascii (l ++ m) = Py.is_ascii l && Py.is_ascii m.
Proof. apply forallb_app. Qed.

(** Behind the data-URI marker the decoder stands at the fourth position
    of a quad (19 of the 22 characters of the marker are in the alphabet),
    so the Base64 text that follows is read out of step and rejected. *)
Lemma b64decode_data_uri (bs : list byte) :
  b64decode (App.DATA_URI_PREFIX ++ b64encode bs)%string = None.
Proof.
  unfold b64decode, b64encode.
  rewrite list_ascii_of_string_app, list_ascii_of_string_of_list_ascii.
  rewrite is_ascii_app, b2a_loop_is_ascii, andb_true_r.
  replace (Py.is_ascii (list_ascii_of_string App.DATA_URI_PREFIX)) with true
    by (vm_compute; reflexivity).
  rewrite a2b_loop_app.
  set (run := a2b_run (list_ascii_of_string App.DATA_URI_PREFIX) 0 0 0).
  vm_compute in run. subst run. cbv beta iota.
  rewrite a2b_b2a_loop_shifted. reflexivity.
Qed.

(** ** The reference instance satisfies the laws *)

Import PIL.

Lemma size_eqb_eq (s t : Z * Z) : size_eqb s t = true -> s = t.
Proof.
  destruct s, t. unfold size_eqb. cbn [fst snd]. intros H.
  apply andb_prop in H as [H1 H2]. apply Z.eqb_eq in H1, H2. congruence.
Qed.

Lemma size_eqb_refl (s : Z * Z) : size_eqb s s = true.
Proof. unfold size_eqb. now rewrite !Z.eqb_refl. Qed.

Lemma well_formedb_spec (im : Image) :
  Ref.well_formedb im = true <-> well_formed im.
Proof.
  unfold Ref.well_formedb, well_formed. split.
  - intros H. apply andb_prop in H as [H H3]. apply andb_prop in H as [H1 H2].
    apply Z.leb_le in H1, H2. apply Z.eqb_eq in H3. auto.
  - intros (H1 & H2 & H3). apply Z.leb_le in H1, H2. apply Z.eqb_eq in H3.
    now rewrite H1, H2, H3.
Qed.

Lemma of_be32_be32 (v : Z) :
  0 <= v < 2 ^ 32 ->
  Ref.of_be32 (Py.to_byte (Z.shiftr v 24)) (Py.to_byte (Z.shiftr v 16))
              (Py.to_byte (Z.shiftr v 8)) (Py.to_byte v) = v.
Proof.
  intros Hv. unfold Ref.of_be32.
  rewrite !byte_val_to_byte, !Z.shiftr_div_pow2 by lia.
  change (2 ^ 24) with 16777216. change (2 ^ 16) with 65536.
  change (2 ^ 8) with 256. change (2 ^ 32) with 4294967296 in Hv.
  divmod.
Qed.

Lemma of_be32_nonneg (b3 b2 b1 b0 : byte) : 0 <= Ref.of_be32 b3 b2 b1 b0.
Proof.
  unfold Ref.of_be32.
  pose proof (byte_val_range b3). pose proof (byte_val_range b2).
  pose proof (byte_val_range b1). pose proof (byte_val_range b0). lia.
Qed.

Lemma pixels_of_bytes_flat (px : list rgba8) :
  Ref.pixels_of_bytes (flat_map Ref.pixel_bytes px) = Some px.
Proof.
  induction px as [| [cr cg cb ca] px IH]; [reflexivity |].
  cbn [flat_map Ref.pixel_bytes app px_r px_g px_b px_a Ref.pixels_of_bytes].
  now rewrite IH.
Qed.

Lemma ref_open_well_formed (bs : list byte) (im : Image) :
  Ref.ref_open bs = Return im -> well_formed im.
Proof.
  unfold Ref.ref_open.
  destruct (Ref.bytes_eqb (firstn 8 bs) Ref.signature); [| discriminate].
  destruct (skipn 8 bs) as [| w3 [| w2 [| w1 [| w0 [| h3 [| h2 [| h1 [| h0 rest]]]]]]]];
    try discriminate.
  destruct (Ref.pixels_of_bytes rest) as [px |]; [| discriminate].
  destruct (Z.of_nat (List.length px) =? _) eqn:Hlen; [| discriminate].
  intros H. injection H as <-. apply Z.eqb_eq in Hlen.
  unfold well_formed, width, height. cbn [size data fst snd].
  auto using of_be32_nonneg.
Qed.

Lemma ref_open_save (im : Image) (bs : list byte) :
  Ref.ref_save im = Return bs -> Ref.ref_open bs = Return im.
Proof.
  unfold Ref.ref_save.
  destruct (Mode_eqb (mode im) M_RGBA) eqn:Hmode; [| discriminate].
  destruct (Ref.well_formedb im) eqn:Hwf; [| discriminate].
  destruct (width im <? 2 ^ 31) eqn:Hw; [| discriminate].
  destruct (height im <? 2 ^ 31) eqn:Hh; [| discriminate].
  cbn [andb]. intros H. injection H as <-.
  apply well_formedb_spec in Hwf. destruct Hwf as (Hw0 & Hh0 & Hlen).
  apply Z.ltb_lt in Hw, Hh.
  destruct im as [m [w h] px]. unfold width, height in *.
  cbn [size data mode fst snd] in *.
  destruct m; try discriminate.
  unfold Ref.ref_open, Ref.signature, Ref.be32.
  cbn [app firstn skipn].
  replace (Ref.bytes_eqb _ _) with true by (vm_compute; reflexivity).
  rewrite pixels_of_bytes_flat, !of_be32_be32 by lia.
  apply Z.eqb_eq in Hlen. rewrite Hlen. reflexivity.
Qed.

Lemma ref_convert_spec (im : Image) (m : Mode) (im' : Image) :
  well_formed im -> Ref.ref_convert im m = Return im' ->
  well_formed im' /\ mode im' = m /\ size im' = size im.
Proof.
  intros Hwf H. injection H as <-. auto.
Qed.

Lemma ref_convert_same (im : Image) :
  Ref.ref_convert im (mode im) = Return im.
Proof. destruct im. reflexivity. Qed.

Lemma ref_resize_spec (im : Image) (sz : Z * Z) (im' : Image) :
  well_formed im -> Ref.ref_resize im sz = Return im' ->
  well_formed im' /\ size im' = sz /\ mode im' = mode im.
Proof.
  intros Hwf. unfold Ref.ref_resize.
  destruct (size_eqb (size im) sz) eqn:Hsz.
  - intros H. injection H as <-. apply size_eqb_eq in Hsz. auto.
  - destruct ((fst sz <? 1) || (snd sz <? 1)) eqn:Hpos; [discriminate |].
    intros H. injection H as <-.
    apply orb_false_elim in Hpos as [H1 H2]. apply Z.ltb_ge in H1, H2.
    repeat split; try reflexivity; unfold width, height; cbn [size data];
      try lia.
    rewrite length_map, length_seq. nia.
Qed.

Lemma ref_resize_positive (im : Image) (sz : Z * Z) (im' : Image) :
  Ref.ref_resize im sz = Return im' -> size im <> sz ->
  1 <= fst sz /\ 1 <= snd sz.
Proof.
  unfold Ref.ref_resize. intros H Hne.
  destruct (size_eqb (size im) sz) eqn:Hsz.
  - apply size_eqb_eq in Hsz. contradiction.
  - destruct ((fst sz <? 1) || (snd sz <? 1)) eqn:Hpos; [discriminate |].
    apply orb_false_elim in Hpos as [H1 H2]. apply Z.ltb_ge in H1, H2. lia.
Qed.

Lemma imaging_laws : ImagingLaws Ref.imaging.
Proof.
  constructor; cbn [Image_open convert save_PNG resize_LANCZOS Ref.imaging].
  - exact ref_open_well_formed.
  - exact ref_convert_spec.
  - exact ref_convert_same.
  - intros im bs _ _. apply ref_open_save.
  - exact ref_resize_spec.
  - exact ref_resize_positive.
Qed.

Lemma failing_encoder_laws : ImagingLaws Ref.failing_encoder.
Proof.
  constructor;
    cbn [Image_open convert save_PNG resize_LANCZOS Ref.failing_encoder].
  - exact ref_open_well_formed.
  - exact ref_convert_spec.
  - exact ref_convert_same.
  - discriminate.
  - exact ref_resize_spec.
  - exact ref_resize_positive.
Qed.

(** ** decode_image and encode_image *)

Import Flask App.

Section Codec.

Context {I : Imaging}.
Hypothesis laws : ImagingLaws I.

Lemma decode_image_inv (s : string) (im : Image) :
  decode_image s = Some im ->
  exists bs opened,
    b64decode s = Some bs /\ Image_open bs = Return opened
    /\ convert opened M_RGBA = Return im.
Proof.
  unfold decode_image, except_None, bind, or_raise.
  destruct (b64decode s) as [bs |]; [| discriminate].
  destruct (Image_open bs) as [opened |] eqn:Hopen; [| discriminate].
  destruct (convert opened M_RGBA) as [im' |] eqn:Hconv; [| discriminate].
  intros H. injection H as <-. eauto.
Qed.

Lemma decode_image_RGBA (s : string) (im : Image) :
  decode_image s = Some im -> well_formed im /\ mode im = M_RGBA.
Proof.
  intros H. apply decode_image_inv in H as (bs & opened & _ & Hopen & Hconv).
  apply (open_well_formed I laws) in Hopen.
  destruct (convert_spec I laws _ _ _ Hopen Hconv) as (Hwf & Hmode & _).
  auto.
Qed.

Lemma encode_image_inv (im : Image) (b64 : string) :
  encode_image im = Some b64 ->
  exists bs,
    save_PNG im = Return bs
    /\ b64 = (DATA_URI_PREFIX ++ b64encode bs)%string.
Proof.
  unfold encode_image, except_None, bind.
  destruct (save_PNG im) as [bs |]; [| discriminate].
  intros H. injection H as <-. eauto.
Qed.

(** The text behind the marker of an encoded RGBA raster decodes to that
    raster; the encoded string itself does not decode. *)
Lemma decode_encoded (im : Image) (b64 : string) :
  well_formed im -> mode im = M_RGBA -> encode_image im = Some b64 ->
  decode_image b64 = None
  /\ exists text,
       b64 = (DATA_URI_PREFIX ++ text)%string /\ decode_image text = Some im.
Proof.
  intros Hwf Hmode H. apply encode_image_inv in H as (bs & Hsave & ->).
  split.
  - unfold decode_image. now rewrite b64decode_data_uri.
  - exists (b64encode bs). split; [reflexivity |].
    unfold decode_image. rewrite b64decode_b64encode.
    cbn [or_raise bind].
    rewrite (PNG_lossless I laws _ _ Hwf Hmode Hsave).
    cbn [bind]. rewrite <- Hmode, (convert_same I laws). reflexivity.
Qed.

(** C1 (as amended): for an image produced by decode_image, the string
    that encode_image returns is the data-URI marker followed by Base64
    text; that text decodes to the very same image (same dimensions, same
    pixels), while the returned string as a whole is refused by
    decode_image. *)
Theorem roundtrip_behind_marker (s : string) (im : Image) (b64 : string) :
  decode_image s = Some im -> encode_image im = Some b64 ->
  decode_image b64 = None
  /\ exists text,
       b64 = (DATA_URI_PREFIX ++ text)%string /\ decode_image text = Some im.
Proof.
  intros Hdec Henc. destruct (decode_image_RGBA _ _ Hdec) as [Hwf Hmode].
  now apply decode_encoded.
Qed.

End Codec.

(** C1 (counterexample): a decoded 2 x 1 image is encoded, and the
    resulting string does not decode. *)
Lemma roundtrip_refused :
  let s := Ref.payload (Ref.solid 2 1 Ref.red) in
  exists im b64,
    decode_image (I := Ref.imaging) s = Some im
    /\ encode_image (I := Ref.imaging) im = Some b64
    /\ decode_image (I := Ref.imaging) b64 = None.
Proof.
  exists (Ref.solid 2 1 Ref.red).
  exists (DATA_URI_PREFIX ++ Ref.payload (Ref.solid 2 1 Ref.red))%string.
  vm_compute. auto.
Qed.

Lemma roundtrip_behind_marker_witness :
  let im := Ref.solid 2 1 Ref.red in
  let b64 := (DATA_URI_PREFIX ++ Ref.payload im)%string in
  decode_image (I := Ref.imaging) b64 = None
  /\ exists text,
       b64 = (DATA_URI_PREFIX ++ text)%string
       /\ decode_image (I := Ref.imaging) text = Some im.
Proof.
  apply (roundtrip_behind_marker imaging_laws
           (Ref.payload (Ref.solid 2 1 Ref.red))); vm_compute; reflexivity.
Defined.

(** ** resize_image *)

Lemma int_nonempty (text : string) (n : Z) :
  Py.int text 10 = Some n -> nonempty (Some text) = Some text.
Proof.
  destruct text; [| reflexivity].
  intros H. vm_compute in H. discriminate.
Qed.

Lemma read_dimension_absent (not_positive invalid : string) :
  read_dimension None not_positive invalid = inr None.
Proof. reflexivity. Qed.

Lemma read_dimension_empty (not_positive invalid : string) :
  read_dimension (Some "") not_positive invalid = inr None.
Proof. reflexivity. Qed.

Lemma read_dimension_positive (text : string) (n : Z)
      (not_positive invalid : string) :
  Py.int text 10 = Some n -> 0 < n ->
  read_dimension (Some text) not_positive invalid = inr (Some n).
Proof.
  intros Hint Hpos. unfold read_dimension.
  rewrite (int_nonempty _ _ Hint), Hint.
  destruct (n <=? 0) eqn:Hle; [apply Z.leb_le in Hle; lia | reflexivity].
Qed.

Lemma read_dimension_rejected (text : string) (not_positive invalid : string) :
  text <> "" -> not_positive_integer text = true ->
  exists e, read_dimension (Some text) not_positive invalid
            = inl (jsonify [("error", e)] 400).
Proof.
  intros Hne Hbad. unfold read_dimension, not_positive_integer in *.
  destruct text as [| c text]; [contradiction |]. cbn [nonempty Py.truthy].
  destruct (Py.int (String c text) 10) as [n |].
  - rewrite Hbad. eauto.
  - eauto.
Qed.

(** A dimension block either returns a 400 response that carries only an
    error text, or leaves a positive value or None in its variable. *)
Lemma read_dimension_cases (field : option string)
      (not_positive invalid : string) :
  match read_dimension field not_positive invalid with
  | inl response =>
      status response = 400
      /\ exists e, json response = [("error", e)]
  | inr None => True
  | inr (Some n) => 0 < n
  end.
Proof.
  unfold read_dimension. destruct (nonempty field) as [text |]; [| exact I].
  destruct (Py.int text 10) as [n |].
  - destruct (n <=? 0) eqn:Hle.
    + cbn. eauto.
    + apply Z.leb_gt in Hle. exact Hle.
  - cbn. eauto.
Qed.

Section Resize.

Context {I : Imaging}.
Hypothesis laws : ImagingLaws I.

Lemma resize_image_decoded (request : Request) (s : string) (im : Image) :
  get "image_data" (form request) = Some s -> decode_image s = Some im ->
  resize_image request =
  match read_dimension (get "width" (form request))
          "Width must be a positive integer" "Invalid width parameter" with
  | inl response => response
  | inr width =>
      match read_dimension (get "height" (form request))
              "Height must be a positive integer"
              "Invalid height parameter" with
      | inl response => response
      | inr height => resize_to im width height
      end
  end.
Proof. intros Hget Hdec. unfold resize_image. now rewrite Hget, Hdec. Qed.

(** The resizing branch of resize_image answers 200 only with the
    encoding of a raster that the resampler returned. *)
Lemma resized_response (im out : Image) (response : Response) :
  well_formed im -> mode im = M_RGBA ->
  forall sz,
    resize_LANCZOS im sz = Return out ->
    response =
      match encode_image out with
      | None => jsonify [("error", "Failed to encode processed image")] 500
      | Some processed_image_b64 =>
          jsonify [("image_data", processed_image_b64);
                   ("message", "Image resized successfully!")] 200
      end ->
    status response = 200 ->
    size out = sz
    /\ exists text,
         json response =
           [("image_data", (DATA_URI_PREFIX ++ text)%string);
            ("message", "Image resized successfully!")]
         /\ decode_image text = Some out.
Proof.
  intros Hwf Hmode sz Hres -> Hst.
  destruct (resize_spec I laws _ _ _ Hwf Hres) as (Hwf' & Hsz & Hmode').
  rewrite Hmode in Hmode'.
  destruct (encode_image out) as [b64 |] eqn:Henc; [| discriminate].
  destruct (decode_encoded laws _ _ Hwf' Hmode' Henc)
    as (_ & text & -> & Hdec).
  split; [exact Hsz |]. exists text. auto.
Qed.

(** C3: with a valid image and both width and height given as positive
    integers, a successful response carries an image whose dimensions are
    exactly the requested (width, height), whatever the original size. *)
Theorem resize_exact_dimensions
        (request : Request) (s : string) (im : Image)
        (width_str height_str : string) (w h : Z) :
  get "image_data" (form request) = Some s -> decode_image s = Some im ->
  get "width" (form request) = Some width_str ->
  get "height" (form request) = Some height_str ->
  Py.int width_str 10 = Some w -> 0 < w ->
  Py.int height_str 10 = Some h -> 0 < h ->
  status (resize_image request) = 200 ->
  exists out text,
    resize_LANCZOS im (w, h) = Return out
    /\ size out = (w, h)
    /\ json (resize_image request) =
         [("image_data", (DATA_URI_PREFIX ++ text)%string);
          ("message", "Image resized successfully!")]
    /\ decode_image text = Some out.
Proof.
  intros Hget Hdec Hw Hh Hwi Hwp Hhi Hhp.
  destruct (decode_image_RGBA laws _ _ Hdec) as [Hwf Hmode].
  rewrite (resize_image_decoded _ _ _ Hget Hdec), Hw, Hh.
  rewrite (read_dimension_positive _ _ _ _ Hwi Hwp),
    (read_dimension_positive _ _ _ _ Hhi Hhp).
  unfold resize_to, nonzero, try_except.
  destruct (w =? 0) eqn:Ew; [apply Z.eqb_eq in Ew; lia |].
  destruct (h =? 0) eqn:Eh; [apply Z.eqb_eq in Eh; lia |].
  destruct (size im) as [original_width original_height].
  destruct (resize_LANCZOS im (w, h)) as [out | e] eqn:Hres;
    cbn [bind]; [| discriminate].
  intros Hst. exists out.
  match type of Hst with status ?r = _ => set (response := r) in * end.
  destruct (resized_response im out response Hwf Hmode _ Hres) as (Hsz & text & Hjson & Hdec').
  - subst response. destruct (encode_image out); reflexivity.
  - exact Hst.
  - exists text. auto.
Qed.

(** C2 (as amended): with a valid image, a positive width and no height,
    a successful response carries an image of exactly the requested width
    whose height is int(width * (original_height / original_width)): the
    binary64 product, truncated toward zero.  For width 200 on a
    400 x 300 source that height is 150. *)
Theorem resize_width_only
        (request : Request) (s : string) (im : Image)
        (width_str : string) (w : Z) :
  get "image_data" (form request) = Some s -> decode_image s = Some im ->
  get "width" (form request) = Some width_str ->
  get "height" (form request) = None ->
  Py.int width_str 10 = Some w -> 0 < w ->
  status (resize_image request) = 200 ->
  exists new_height out text,
    scaled w (height im) (width im) = Return new_height
    /\ resize_LANCZOS im (w, new_height) = Return out
    /\ size out = (w, new_height)
    /\ json (resize_image request) =
         [("image_data", (DATA_URI_PREFIX ++ text)%string);
          ("message", "Image resized successfully!")]
    /\ decode_image text = Some out
    /\ (size im = (400, 300) -> w = 200 -> new_height = 150).
Proof.
  intros Hget Hdec Hw Hh Hwi Hwp.
  destruct (decode_image_RGBA laws _ _ Hdec) as [Hwf Hmode].
  rewrite (resize_image_decoded _ _ _ Hget Hdec), Hw, Hh.
  rewrite (read_dimension_positive _ _ _ _ Hwi Hwp), read_dimension_absent.
  unfold resize_to, nonzero, try_except, width, height.
  destruct (w =? 0) eqn:Ew; [apply Z.eqb_eq in Ew; lia |].
  destruct (size im) as [original_width original_height] eqn:Hsize.
  cbn [fst snd].
  destruct (scaled w original_height original_width) as [new_height | e]
    eqn:Hscaled; cbn [bind]; [| discriminate].
  destruct (resize_LANCZOS im (w, new_height)) as [out | e] eqn:Hres;
    cbn [bind]; [| discriminate].
  intros Hst. exists new_height, out.
  match type of Hst with status ?r = _ => set (response := r) in * end.
  destruct (resized_response im out response Hwf Hmode _ Hres)
    as (Hsz & text & Hjson & Hdec').
  - subst response. destruct (encode_image out); reflexivity.
  - exact Hst.
  - exists text. repeat split; auto.
    intros Hsrc ->. injection Hsrc as -> ->.
    vm_compute in Hscaled. congruence.
Qed.

(** C9: with a valid image and neither width nor height supplied,
    resize_image changes nothing: the response is a 200 whose message says
    that no dimensions were provided and whose image decodes to the input
    image itself (same dimensions, same pixels). *)
Theorem resize_without_dimensions
        (request : Request) (s : string) (im : Image) (b64 : string) :
  get "image_data" (form request) = Some s -> decode_image s = Some im ->
  get "width" (form request) = None ->
  get "height" (form request) = None ->
  encode_image im = Some b64 ->
  resize_image request =
    jsonify [("image_data", b64);
             ("message", "No dimensions provided, image returned as is.")]
            200
  /\ exists text,
       b64 = (DATA_URI_PREFIX ++ text)%string /\ decode_image text = Some im.
Proof.
  intros Hget Hdec Hw Hh Henc.
  rewrite (resize_image_decoded _ _ _ Hget Hdec), Hw, Hh.
  rewrite !read_dimension_absent. unfold resize_to. rewrite Henc.
  split; [reflexivity |].
  apply (roundtrip_behind_marker laws s im b64 Hdec Henc).
Qed.

End Resize.

(** C4 (as amended): a width or height field whose text is not empty and
    is not a strictly positive integer (int rejects it, or the value is
    zero or negative) makes resize_image answer 400. *)
Theorem resize_rejects_bad_dimension
        {I : Imaging} (request : Request) (text : string) :
  get "width" (form request) = Some text
  \/ get "height" (form request) = Some text ->
  text <> "" -> not_positive_integer text = true ->
  status (resize_image request) = 400.
Proof.
  intros Hfield Hne Hbad. unfold resize_image.
  destruct (get "image_data" (form request)) as [s |]; [| reflexivity].
  destruct (decode_image s) as [im |]; [| reflexivity].
  pose proof (read_dimension_cases (get "width" (form request))
                "Width must be a positive integer"
                "Invalid width parameter") as Hwidth.
  destruct Hfield as [Hw | Hh].
  - rewrite Hw.
    destruct (read_dimension_rejected text
                "Width must be a positive integer"
                "Invalid width parameter" Hne Hbad) as [e ->].
    reflexivity.
  - destruct (read_dimension (get "width" (form request)) _ _)
      as [response | width].
    + apply Hwidth.
    + rewrite Hh.
      destruct (read_dimension_rejected text
                  "Height must be a positive integer"
                  "Invalid height parameter" Hne Hbad) as [e ->].
      reflexivity.
Qed.

Lemma resize_exact_dimensions_witness :
  let request :=
    Ref.request_for (Ref.solid 4 3 Ref.red) [("width", "2"); ("height", "5")]
                    [] in
  exists out text,
    resize_LANCZOS (Imaging := Ref.imaging) (Ref.solid 4 3 Ref.red) (2, 5)
    = Return out
    /\ size out = (2, 5)
    /\ json (resize_image (I := Ref.imaging) request) =
         [("image_data", (DATA_URI_PREFIX ++ text)%string);
          ("message", "Image resized successfully!")]
    /\ decode_image (I := Ref.imaging) text = Some out.
Proof.
  apply (resize_exact_dimensions imaging_laws
           (Ref.request_for (Ref.solid 4 3 Ref.red)
                            [("width", "2"); ("height", "5")] [])
           (Ref.payload (Ref.solid 4 3 Ref.red)) (Ref.solid 4 3 Ref.red)
           "2" "5" 2 5); vm_compute; reflexivity.
Defined.

Lemma resize_width_only_witness :
  let im := Ref.solid 4 3 Ref.red in
  let request := Ref.request_for im [("width", "2")] [] in
  exists new_height out text,
    scaled 2 (height im) (width im) = Return new_height
    /\ resize_LANCZOS (Imaging := Ref.imaging) im (2, new_height) = Return out
    /\ size out = (2, new_height)
    /\ json (resize_image (I := Ref.imaging) request) =
         [("image_data", (DATA_URI_PREFIX ++ text)%string);
          ("message", "Image resized successfully!")]
    /\ decode_image (I := Ref.imaging) text = Some out
    /\ (size im = (400, 300) -> 2 = 200 -> new_height = 150).
Proof.
  apply (resize_width_only imaging_laws
           (Ref.request_for (Ref.solid 4 3 Ref.red) [("width", "2")] [])
           (Ref.payload (Ref.solid 4 3 Ref.red)) (Ref.solid 4 3 Ref.red)
           "2" 2); vm_compute; reflexivity.
Defined.

(** C2 (counterexample): a 49 x 1 image resized to width 98.  The exact
    quotient 98 * 1 / 49 is 2, but 1 / 49 is rounded down in binary64 and
    the product 1.9999999999999998 is truncated to 1. *)
Lemma resize_width_only_below_quotient :
  let im := Ref.solid 49 1 Ref.red in
  let request := Ref.request_for im [("width", "98")] [] in
  exists out text,
    json (resize_image (I := Ref.imaging) request) =
      [("image_data", (DATA_URI_PREFIX ++ text)%string);
       ("message", "Image resized successfully!")]
    /\ decode_image (I := Ref.imaging) text = Some out
    /\ size out = (98, 1)
    /\ Z.quot (height im * 98) (width im) = 2.
Proof.
  exists (Ref.solid 98 1 Ref.red), (Ref.payload (Ref.solid 98 1 Ref.red)).
  vm_compute. auto.
Qed.

Lemma resize_without_dimensions_witness :
  let im := Ref.solid 4 3 Ref.red in
  let b64 := (DATA_URI_PREFIX ++ Ref.payload im)%string in
  resize_image (I := Ref.imaging) (Ref.request_for im [] []) =
    jsonify [("image_data", b64);
             ("message", "No dimensions provided, image returned as is.")]
            200
  /\ exists text,
       b64 = (DATA_URI_PREFIX ++ text)%string
       /\ decode_image (I := Ref.imaging) text = Some im.
Proof.
  apply (resize_without_dimensions imaging_laws
           (Ref.request_for (Ref.solid 4 3 Ref.red) [] [])
           (Ref.payload (Ref.solid 4 3 Ref.red))); vm_compute; reflexivity.
Defined.

Lemma resize_rejects_bad_dimension_witness :
  status (resize_image (I := Ref.imaging)
            (Ref.request_for (Ref.solid 4 3 Ref.red) [("height", "-3")] []))
  = 400.
Proof.
  apply (resize_rejects_bad_dimension
           (Ref.request_for (Ref.solid 4 3 Ref.red) [("height", "-3")] [])
           "-3").
  - right. reflexivity.
  - discriminate.
  - vm_compute. reflexivity.
Defined.

(** C4 (counterexample): an empty width is supplied; resize_image treats
    it as absent and answers 200 with the image unchanged. *)
Lemma resize_ignores_empty_dimension :
  let request := Ref.request_for (Ref.solid 4 3 Ref.red) [("width", "")] [] in
  get "width" (form request) = Some ""
  /\ not_positive_integer "" = true
  /\ status (resize_image (I := Ref.imaging) request) = 200.
Proof. vm_compute. auto. Qed.

(** ** Compositing *)

Lemma composite_clear (dst src : rgba8) :
  px_a src = x00 -> composite_pixel dst src = dst.
Proof. intros H. unfold composite_pixel. rewrite H. reflexivity. Qed.

Lemma blend_band_opaque (s d : byte) : blend_band 32640 0 s d = s.
Proof.
  unfold blend_band. rewrite Z.mul_0_r, Z.add_0_r.
  destruct s; vm_compute; reflexivity.
Qed.

(** An opaque source pixel hides the destination. *)
Lemma composite_opaque (dst src : rgba8) :
  px_a src = xff -> composite_pixel dst src = src.
Proof.
  destruct src as [sr sg sb sa]. cbn [px_a]. intros ->.
  unfold composite_pixel. cbn [px_a px_r px_g px_b].
  change (Py.byte_val xff) with 255. change (255 =? 0) with false.
  change (255 - 255) with 0. rewrite Z.mul_0_r. cbv zeta iota.
  change (u32 (u32 (255 * 255 * 255 * Z.shiftl 1 PRECISION_BITS)
               / u32 (255 * 255 + u32 0))) with 32640.
  change (u32 (255 * Z.shiftl 1 PRECISION_BITS - 32640)) with 0.
  rewrite !blend_band_opaque. reflexivity.
Qed.

Lemma map2_repeat {A B C : Type} (f : A -> B -> C) (x : A) (l : list B) :
  map2 f (repeat x (List.length l)) l = map (f x) l.
Proof. induction l as [| y l IH]; cbn; [reflexivity | now rewrite IH]. Qed.

Lemma map_id_on {A : Type} (f : A -> A) (l : list A) :
  Forall (fun x => f x = x) l -> map f l = l.
Proof. induction 1; cbn; congruence. Qed.

Lemma map_const_on {A : Type} (f : A -> A) (c : A) (l : list A) :
  Forall (fun x => f x = c) l -> map f l = repeat c (List.length l).
Proof. induction 1; cbn; congruence. Qed.

Lemma new_RGBA_well_formed (im : Image) (color : option (Z * Z * Z * Z)) :
  well_formed im ->
  new_RGBA (size im) color =
  Return (mk_Image M_RGBA (size im)
            (repeat (match color with
                     | Some c => getink c
                     | None => zero_pixel
                     end) (List.length (data im)))).
Proof.
  intros (Hw & Hh & Hlen). unfold new_RGBA, width, height in *.
  destruct (fst (size im) <? 0) eqn:E1; [apply Z.ltb_lt in E1; lia |].
  destruct (snd (size im) <? 0) eqn:E2; [apply Z.ltb_lt in E2; lia |].
  cbn [orb]. rewrite <- Hlen, Nat2Z.id. reflexivity.
Qed.

Lemma nth_map_seq {A : Type} (f : nat -> A) (len n : nat) (d : A) :
  (n < len)%nat -> nth n (map f (seq 0 len)) d = f n.
Proof.
  intros Hlt.
  rewrite (nth_indep _ d (f 0%nat)) by (rewrite length_map, length_seq; lia).
  rewrite map_nth, seq_nth by lia. reflexivity.
Qed.

(** A source raster of the destination's size replaces every pixel. *)
Lemma paste_cover (dst src : Image) :
  well_formed dst -> well_formed src -> size src = size dst ->
  paste dst src = mk_Image (mode dst) (size dst) (data src).
Proof.
  intros (Hw & Hh & Hlen) (_ & _ & Hlen') Hsize. unfold paste. f_equal.
  unfold width, height in *. rewrite Hsize in *.
  destruct (size dst) as [w h]. cbn [fst snd] in *.
  assert (Hn : List.length (data dst) = List.length (data src)) by lia.
  rewrite Hn.
  apply nth_ext with (d := zero_pixel) (d' := zero_pixel).
  - now rewrite length_map, length_seq.
  - intros n Hlt. rewrite length_map, length_seq in Hlt.
    rewrite nth_map_seq by exact Hlt.
    assert (Hwpos : (0 < Z.to_nat w)%nat) by nia.
    assert (Hx : (n mod Z.to_nat w < Z.to_nat w)%nat)
      by (apply Nat.mod_upper_bound; lia).
    assert (Hy : (n / Z.to_nat w < Z.to_nat h)%nat)
      by (apply Nat.Div0.div_lt_upper_bound; nia).
    apply Nat.ltb_lt in Hx, Hy. rewrite Hx, Hy. cbn [andb].
    f_equal. pose proof (Nat.div_mod_eq n (Z.to_nat w)). lia.
Qed.

(** The rounded division by 255 of the library is the division to the
    nearest integer. *)
Lemma rounded_division (N : Z) :
  0 <= N <= 65025 ->
  Z.shiftr
    (SHIFTFORDIV255 (u32 (u32 (128 * N) + Z.shiftl 128 PRECISION_BITS)))
    PRECISION_BITS
  = (N + 127) / 255.
Proof.
  intros H. unfold SHIFTFORDIV255, u32, PRECISION_BITS.
  rewrite !Z.shiftr_div_pow2, Z.shiftl_mul_pow2 by lia.
  change (2 ^ 32) with 4294967296. change (2 ^ 8) with 256.
  change (2 ^ 7) with 128.
  rewrite (Z.mod_small (128 * N)) by lia.
  rewrite (Z.mod_small (128 * N + 128 * 128)) by lia.
  divmod.
Qed.

(** With the coefficients of an opaque destination, a band of the blend
    is the weighted mean of the two bands. *)
Lemma blend_band_mean (v : Z) (s d : byte) :
  0 <= v <= 255 ->
  blend_band (128 * v) (128 * (255 - v)) s d
  = Py.to_byte (weighted_mean (Py.byte_val s) (Py.byte_val d) v).
Proof.
  intros Hv. unfold blend_band, weighted_mean.
  pose proof (byte_val_range s) as Hs. pose proof (byte_val_range d) as Hd.
  set (bs := Py.byte_val s) in *. set (bd := Py.byte_val d) in *.
  assert (HN : 0 <= bs * v + bd * (255 - v) <= 65025) by nia.
  replace (bs * (128 * v) + bd * (128 * (255 - v)))
    with (128 * (bs * v + bd * (255 - v))) by ring.
  now rewrite rounded_division.
Qed.

Lemma weighted_mean_clear (s d : Z) : weighted_mean s d 0 = d.
Proof. unfold weighted_mean. divmod. Qed.

(** Over an opaque destination the integer code of the library computes
    the weighted mean of every band and an opaque result. *)
Lemma composite_on_opaque (dst src : rgba8) :
  px_a dst = xff ->
  composite_pixel dst src =
  let alpha := Py.byte_val (px_a src) in
  mk_rgba8
    (Py.to_byte (weighted_mean (Py.byte_val (px_r src))
                               (Py.byte_val (px_r dst)) alpha))
    (Py.to_byte (weighted_mean (Py.byte_val (px_g src))
                               (Py.byte_val (px_g dst)) alpha))
    (Py.to_byte (weighted_mean (Py.byte_val (px_b src))
                               (Py.byte_val (px_b dst)) alpha))
    xff.
Proof.
  intros Ha. unfold composite_pixel. rewrite Ha.
  change (Py.byte_val xff) with 255.
  pose proof (byte_val_range (px_a src)) as Hv.
  set (v := Py.byte_val (px_a src)) in *. cbv zeta.
  destruct (v =? 0) eqn:Ev.
  - apply Z.eqb_eq in Ev. rewrite Ev, !weighted_mean_clear, !to_byte_val.
    destruct dst as [dr dg db da]. cbn [px_a px_r px_g px_b] in *.
    now subst da.
  - apply Z.eqb_neq in Ev.
    assert (Hout : u32 (v * 255 + u32 (255 * (255 - v))) = 65025).
    { unfold u32. change (2 ^ 32) with 4294967296.
      rewrite (Z.mod_small (255 * (255 - v))) by lia.
      rewrite Z.mod_small by lia. lia. }
    rewrite Hout.
    assert (Hc1 :
      u32 (u32 (v * 255 * 255 * Z.shiftl 1 PRECISION_BITS) / 65025)
      = 128 * v).
    { unfold u32, PRECISION_BITS. change (Z.shiftl 1 7) with 128.
      change (2 ^ 32) with 4294967296.
      rewrite (Z.mod_small (v * 255 * 255 * 128)) by lia.
      replace (v * 255 * 255 * 128) with (128 * v * 65025) by ring.
      rewrite Z.div_mul by lia. apply Z.mod_small. lia. }
    rewrite Hc1.
    assert (Hc2 :
      u32 (255 * Z.shiftl 1 PRECISION_BITS - 128 * v) = 128 * (255 - v)).
    { unfold u32, PRECISION_BITS. change (Z.shiftl 1 7) with 128.
      change (2 ^ 32) with 4294967296. rewrite Z.mod_small by lia. ring. }
    rewrite Hc2, !blend_band_mean by lia. reflexivity.
Qed.

Lemma CLIP8_clamp (v : Z) :
  CLIP8 v = Py.to_byte (clamp255 v)
  /\ Py.byte_val (CLIP8 v) = clamp255 v.
Proof.
  assert (H : CLIP8 v = Py.to_byte (clamp255 v)).
  { unfold CLIP8, clamp255. f_equal.
    destruct (v <? 0) eqn:E1; [apply Z.ltb_lt in E1; lia |].
    apply Z.ltb_ge in E1.
    destruct (255 <? v) eqn:E2;
      [apply Z.ltb_lt in E2 | apply Z.ltb_ge in E2]; lia. }
  split; [exact H |].
  rewrite H, byte_val_to_byte. apply Z.mod_small. unfold clamp255. lia.
Qed.

(** The foreground over a solid colour, pixel by pixel. *)
Lemma composite_over_colour (cr cg cb : Z) (p : rgba8) :
  composite_pixel (getink (cr, cg, cb, 255)) p = over_opaque (cr, cg, cb) p.
Proof.
  rewrite composite_on_opaque by reflexivity.
  unfold over_opaque, getink. cbn [px_r px_g px_b px_a].
  now rewrite !(proj2 (CLIP8_clamp _)).
Qed.

(** A half-transparent blue pixel over red. *)
Lemma composite_half_transparent :
  composite_pixel (mk_rgba8 xff x00 x00 xff) (mk_rgba8 x00 x00 xff x80)
  = mk_rgba8 x7f x00 x80 xff.
Proof. vm_compute. reflexivity. Qed.

Lemma rgb_color_opaque (colour : string) (rgba : Z * Z * Z * Z) :
  rgb_color colour = Some rgba ->
  exists cr cg cb, rgba = (cr, cg, cb, 255).
Proof.
  unfold rgb_color.
  destruct (Py.int _ 16) as [cr |]; [| discriminate].
  destruct (Py.int _ 16) as [cg |]; [| discriminate].
  destruct (Py.int _ 16) as [cb |]; [| discriminate].
  intros H. injection H as <-. eauto.
Qed.

(** ** edit_background *)

Lemma rgb_color_nonempty (colour : string) (rgba : Z * Z * Z * Z) :
  rgb_color colour = Some rgba -> nonempty (Some colour) = Some colour.
Proof.
  destruct colour; [| reflexivity].
  intros H. vm_compute in H. discriminate.
Qed.

Lemma uploaded_truthy (file : option FileStorage) :
  uploaded file = None -> file_truthy file = false.
Proof.
  unfold uploaded. destruct (file_truthy file) eqn:E; [| reflexivity].
  destruct file; [discriminate | discriminate E].
Qed.

Lemma alpha_composite_RGBA (bg im : Image) :
  mode bg = M_RGBA -> mode im = M_RGBA -> size bg = size im ->
  alpha_composite bg im =
  Return (mk_Image M_RGBA (size im)
            (map2 composite_pixel (data bg) (data im))).
Proof.
  intros Hbg Him Hsize. unfold alpha_composite.
  rewrite Hbg, Him, Hsize, size_eqb_refl. reflexivity.
Qed.

Section Edit.

Context {I : Imaging}.
Hypothesis laws : ImagingLaws I.

(** C5: with a valid image and a solid colour, the result is the
    foreground composited over the colour with the foreground's alpha,
    pixel by pixel: the library's integer code, which on this opaque
    background is standard alpha-over, every band being the mean of the
    foreground and the colour (its components brought into 0..255)
    weighted by the foreground's alpha, rounded to the nearest integer,
    and the result opaque.  For the colour "#FF0000" the background is
    solid red (255,0,0,255); a fully opaque foreground gives back the
    foreground, a fully transparent one gives solid red. *)
Theorem edit_background_solid_colour
        (request : Request) (s : string) (im : Image)
        (colour : string) (rgba : Z * Z * Z * Z) :
  get "image_data" (form request) = Some s -> decode_image s = Some im ->
  get "color" (form request) = Some colour ->
  uploaded (get "background_image" (files request)) = None ->
  rgb_color colour = Some rgba ->
  exists final,
    final = mk_Image M_RGBA (size im)
              (map (composite_pixel (getink rgba)) (data im))
    /\ edit_background request =
         match encode_image final with
         | None => jsonify [("error", "Failed to encode processed image")] 500
         | Some processed_image_b64 =>
             jsonify [("image_data", processed_image_b64);
                      ("message", "Background edited successfully!")] 200
         end
    /\ (exists cr cg cb,
          rgba = (cr, cg, cb, 255)
          /\ data final = map (over_opaque (cr, cg, cb)) (data im))
    /\ (colour = "#FF0000" ->
        getink rgba = mk_rgba8 xff x00 x00 xff
        /\ (Forall (fun p => px_a p = xff) (data im) -> final = im)
        /\ (Forall (fun p => px_a p = x00) (data im) ->
            data final
            = repeat (mk_rgba8 xff x00 x00 xff) (List.length (data im)))).
Proof.
  intros Hget Hdec Hcolour Hfile Hrgb.
  destruct (decode_image_RGBA laws _ _ Hdec) as [Hwf Hmode].
  eexists. split; [reflexivity |]. split; [| split].
  - unfold edit_background. rewrite Hget, Hdec, Hcolour, Hfile.
    rewrite (uploaded_truthy _ Hfile), (rgb_color_nonempty _ _ Hrgb), Hrgb.
    assert (Htruthy : Py.truthy (Some colour) = true).
    { destruct colour; [vm_compute in Hrgb; discriminate | reflexivity]. }
    rewrite Htruthy. cbn [negb andb].
    rewrite !(new_RGBA_well_formed _ _ Hwf). cbn [bind].
    rewrite alpha_composite_RGBA by (cbn [mode size]; auto).
    cbn [bind data]. rewrite map2_repeat. unfold try_except.
    destruct (encode_image _); reflexivity.
  - destruct (rgb_color_opaque _ _ Hrgb) as (cr & cg & cb & ->).
    exists cr, cg, cb. split; [reflexivity |]. cbn [data].
    apply map_ext. intros p. apply composite_over_colour.
  - intros ->. vm_compute in Hrgb. injection Hrgb as <-.
    split; [reflexivity |]. split.
    + intros Hopaque. destruct im as [m sz px]. cbn [mode size data] in *.
      subst m. f_equal. apply map_id_on.
      eapply Forall_impl; [| exact Hopaque].
      intros p Hp. now apply composite_opaque.
    + intros Hclear. cbn [data]. apply map_const_on.
      eapply Forall_impl; [| exact Hclear].
      intros p Hp. now apply composite_clear.
Qed.

Lemma uploaded_background_fits
      (bs : list byte) (sz : Z * Z) (opened converted bg_image : Image) :
  Image_open bs = Return opened ->
  convert opened M_RGBA = Return converted ->
  resize_LANCZOS converted sz = Return bg_image ->
  well_formed bg_image /\ size bg_image = sz /\ mode bg_image = M_RGBA.
Proof.
  intros Hopen Hconv Hres.
  apply (open_well_formed I laws) in Hopen.
  destruct (convert_spec I laws _ _ _ Hopen Hconv) as (Hwf1 & Hm1 & _).
  destruct (resize_spec I laws _ _ _ Hwf1 Hres) as (Hwf2 & Hs2 & Hm2).
  rewrite Hm1 in Hm2. auto.
Qed.

(** C10 (as amended): when a background image is uploaded, the colour
    field plays no part.  With a valid foreground the response is never a
    400; if the upload opens, converts and resamples, the background has
    the foreground's dimensions and the response is the encoding of the
    foreground composited over it (a 500 only if encoding fails); if one
    of these steps raises, the response is the 500 of the except clause. *)
Theorem edit_background_uploaded_image
        (request : Request) (s : string) (im : Image) (file : FileStorage) :
  get "image_data" (form request) = Some s -> decode_image s = Some im ->
  get "background_image" (files request) = Some file ->
  filename file <> "" ->
  edit_background request =
    try_except
      (opened <- Image_open (stream file) ;;
       converted <- convert opened M_RGBA ;;
       bg_image <- resize_LANCZOS converted (size im) ;;
       Return
         match encode_image
                 (mk_Image M_RGBA (size im)
                    (map2 composite_pixel (data bg_image) (data im))) with
         | None => jsonify [("error", "Failed to encode processed image")] 500
         | Some processed_image_b64 =>
             jsonify [("image_data", processed_image_b64);
                      ("message", "Background edited successfully!")] 200
         end)%exc
      (fun e => jsonify [("error", "Failed to edit background");
                         ("details", e)] 500)
  /\ status (edit_background request) <> 400
  /\ (forall opened converted bg_image,
        Image_open (stream file) = Return opened ->
        convert opened M_RGBA = Return converted ->
        resize_LANCZOS converted (size im) = Return bg_image ->
        size bg_image = size im).
Proof.
  intros Hget Hdec Hfile Hname.
  destruct (decode_image_RGBA laws _ _ Hdec) as [Hwf Hmode].
  assert (Hup : uploaded (Some file) = Some file).
  { unfold uploaded, file_truthy. destruct (filename file);
      [contradiction | reflexivity]. }
  assert (Htruthy : file_truthy (Some file) = true).
  { unfold file_truthy. destruct (filename file);
      [contradiction | reflexivity]. }
  assert (Hshape : edit_background request =
    try_except
      (opened <- Image_open (stream file) ;;
       converted <- convert opened M_RGBA ;;
       bg_image <- resize_LANCZOS converted (size im) ;;
       Return
         match encode_image
                 (mk_Image M_RGBA (size im)
                    (map2 composite_pixel (data bg_image) (data im))) with
         | None => jsonify [("error", "Failed to encode processed image")] 500
         | Some processed_image_b64 =>
             jsonify [("image_data", processed_image_b64);
                      ("message", "Background edited successfully!")] 200
         end)%exc
      (fun e => jsonify [("error", "Failed to edit background");
                         ("details", e)] 500)).
  { unfold edit_background. rewrite Hget, Hdec, Hfile, Hup, Htruthy.
    rewrite andb_false_r, (new_RGBA_well_formed _ _ Hwf).
    cbn [bind]. unfold try_except.
    destruct (Image_open (stream file)) as [opened | e] eqn:Hopen;
      cbn [bind]; [| reflexivity].
    destruct (convert opened M_RGBA) as [converted | e] eqn:Hconv;
      cbn [bind]; [| reflexivity].
    destruct (resize_LANCZOS converted (size im)) as [bg_image | e] eqn:Hres;
      cbn [bind]; [| reflexivity].
    destruct (uploaded_background_fits _ _ _ _ _ Hopen Hconv Hres)
      as (Hwf2 & Hs2 & Hm2).
    rewrite paste_cover; cbn [mode size data]; auto.
    - rewrite alpha_composite_RGBA by (cbn [mode size]; auto).
      cbn [bind data]. destruct (encode_image _); reflexivity.
    - destruct Hwf as (Hw & Hh & Hlen). unfold well_formed, width, height.
      cbn [size data]. rewrite repeat_length. auto. }
  split; [exact Hshape |]. split.
  - rewrite Hshape. unfold try_except.
    destruct (Image_open (stream file)); cbn [bind]; [| discriminate].
    destruct (convert _ M_RGBA); cbn [bind]; [| discriminate].
    destruct (resize_LANCZOS _ (size im)); cbn [bind]; [| discriminate].
    destruct (encode_image _); discriminate.
  - intros opened converted bg_image Hopen Hconv Hres.
    apply (uploaded_background_fits _ _ _ _ _ Hopen Hconv Hres).
Qed.

End Edit.

Lemma edit_background_solid_colour_witness :
  let im := Ref.solid 2 1 Ref.opaque_blue in
  let request := Ref.request_for im [("color", "#FF0000")] [] in
  exists final,
    final = mk_Image M_RGBA (size im)
              (map (composite_pixel (getink (255, 0, 0, 255))) (data im))
    /\ edit_background (I := Ref.imaging) request =
         match encode_image (I := Ref.imaging) final with
         | None => jsonify [("error", "Failed to encode processed image")] 500
         | Some processed_image_b64 =>
             jsonify [("image_data", processed_image_b64);
                      ("message", "Background edited successfully!")] 200
         end
    /\ (exists cr cg cb,
          (255, 0, 0, 255) = (cr, cg, cb, 255)
          /\ data final = map (over_opaque (cr, cg, cb)) (data im))
    /\ ("#FF0000" = "#FF0000" ->
        getink (255, 0, 0, 255) = mk_rgba8 xff x00 x00 xff
        /\ (Forall (fun p => px_a p = xff) (data im) -> final = im)
        /\ (Forall (fun p => px_a p = x00) (data im) ->
            data final
            = repeat (mk_rgba8 xff x00 x00 xff) (List.length (data im)))).
Proof.
  apply (edit_background_solid_colour imaging_laws
           (Ref.request_for (Ref.solid 2 1 Ref.opaque_blue)
                            [("color", "#FF0000")] [])
           (Ref.payload (Ref.solid 2 1 Ref.opaque_blue))
           (Ref.solid 2 1 Ref.opaque_blue) "#FF0000" (255, 0, 0, 255));
    vm_compute; reflexivity.
Defined.

Lemma edit_background_uploaded_image_witness :
  let file :=
    mk_FileStorage "bg.png"
      (Ref.signature ++ Ref.be32 1 ++ Ref.be32 1
       ++ Ref.pixel_bytes Ref.opaque_blue) in
  let request :=
    Ref.request_for (Ref.solid 2 1 Ref.clear_green) [("color", "#ZZZZZZ")]
                    [("background_image", file)] in
  status (edit_background (I := Ref.imaging) request) <> 400.
Proof.
  refine (proj1 (proj2
    (edit_background_uploaded_image imaging_laws
       (Ref.request_for (Ref.solid 2 1 Ref.clear_green)
          [("color", "#ZZZZZZ")]
          [("background_image",
            mk_FileStorage "bg.png"
              (Ref.signature ++ Ref.be32 1 ++ Ref.be32 1
               ++ Ref.pixel_bytes Ref.opaque_blue))])
       (Ref.payload (Ref.solid 2 1 Ref.clear_green))
       (Ref.solid 2 1 Ref.clear_green)
       (mk_FileStorage "bg.png"
          (Ref.signature ++ Ref.be32 1 ++ Ref.be32 1
           ++ Ref.pixel_bytes Ref.opaque_blue))
       _ _ _ _)));
    [vm_compute; reflexivity .. | discriminate].
Defined.

(** C10 (counterexample): a colour and a background file are both
    supplied, the foreground is valid, and the upload is not an image:
    the handler returns the 500 error of its except clause. *)
Lemma edit_background_unreadable_upload :
  let request :=
    Ref.request_for (Ref.solid 2 1 Ref.red) [("color", "#FF0000")]
                    [("background_image", mk_FileStorage "bg.png" [x00; x01])]
  in
  edit_background (I := Ref.imaging) request =
    jsonify [("error", "Failed to edit background");
             ("details", "cannot identify image file")] 500.
Proof. vm_compute. reflexivity. Qed.

(** C8 (the code at the failing input): the colour "#FF0000ZZ" is not a
    6-hex-digit colour, yet only its first six characters after the hash
    sign are read: it is parsed as red and the request is answered 200,
    exactly as for "#FF0000". *)
Theorem rgb_color_accepts_trailing_characters :
  let im := Ref.solid 2 1 Ref.clear_green in
  rgb_color "#FF0000ZZ" = Some (255, 0, 0, 255)
  /\ status (edit_background (I := Ref.imaging)
               (Ref.request_for im [("color", "#FF0000ZZ")] [])) = 200
  /\ edit_background (I := Ref.imaging)
       (Ref.request_for im [("color", "#FF0000ZZ")] [])
     = edit_background (I := Ref.imaging)
         (Ref.request_for im [("color", "#FF0000")] [])
  /\ rgb_color "#ZZZZZZ" = None.
Proof. vm_compute. auto. Qed.

(** ** Error responses *)

(** What an answer of a handler looks like: a 200, a 400 that carries
    only an error text, or a 500 that carries an error text and either
    the text of the exception caught or, when encode_image returned None,
    nothing else. *)
Definition answer_shape (response : Response) : Prop :=
  status response = 200
  \/ (status response = 400 /\ only_error response)
  \/ (status response = 500
      /\ (error_and_details response
          \/ json response = [("error", "Failed to encode processed image")]
          \/ json response = [("error", "Failed to encode image")])).

Ltac shape_done :=
  unfold answer_shape, only_error, error_and_details;
  cbn [status json jsonify];
  first
    [ left; reflexivity
    | right; left; split; [reflexivity | eexists; reflexivity]
    | right; right; split; [reflexivity |];
      first [ left; eexists; eexists; reflexivity
            | right; left; reflexivity
            | right; right; reflexivity ] ].

Ltac split_cases :=
  repeat match goal with
         | |- context [match ?x with _ => _ end] =>
             lazymatch x with
             | context [match _ with _ => _ end] => fail
             | _ => destruct x; cbn [bind try_except]
             end
         end.

Lemma remove_background_shape {I : Imaging} (request : Request) :
  answer_shape (remove_background request).
Proof.
  unfold remove_background, try_except, bind.
  split_cases; shape_done.
Qed.

Lemma edit_background_shape {I : Imaging} (request : Request) :
  answer_shape (edit_background request).
Proof.
  unfold edit_background, try_except, bind.
  split_cases; shape_done.
Qed.

Lemma resize_to_shape {I : Imaging} (im : Image) (width height : option Z) :
  answer_shape (resize_to im width height).
Proof.
  unfold resize_to, try_except, bind.
  split_cases; shape_done.
Qed.

Lemma resize_image_shape {I : Imaging} (request : Request) :
  answer_shape (resize_image request).
Proof.
  unfold resize_image.
  destruct (get "image_data" (form request)); [| shape_done].
  destruct (decode_image _); [| shape_done].
  pose proof (read_dimension_cases (get "width" (form request))
                "Width must be a positive integer"
                "Invalid width parameter") as Hw.
  pose proof (read_dimension_cases (get "height" (form request))
                "Height must be a positive integer"
                "Invalid height parameter") as Hh.
  destruct (read_dimension (get "width" (form request)) _ _) as [r | width].
  - right. left. exact Hw.
  - destruct (read_dimension (get "height" (form request)) _ _)
      as [r | height].
    + right. left. exact Hh.
    + apply resize_to_shape.
Qed.

(** Past its checks, each handler is its try block under its except
    clause. *)
Lemma remove_background_block {I : Imaging}
      (request : Request) (s : string) (im : Image) :
  get "image_data" (form request) = Some s -> decode_image s = Some im ->
  remove_background request =
    try_except (remove_background_try im)
      (fun e => jsonify [("error", "Failed to remove background");
                         ("details", e)] 500).
Proof.
  intros Hget Hdec. unfold remove_background. now rewrite Hget, Hdec.
Qed.

Lemma edit_background_block {I : Imaging}
      (request : Request) (s : string) (im : Image) :
  get "image_data" (form request) = Some s -> decode_image s = Some im ->
  Py.truthy (get "color" (form request))
  || file_truthy (get "background_image" (files request)) = true ->
  edit_background request =
    try_except
      (edit_background_try im (get "color" (form request))
                           (get "background_image" (files request)))
      (fun e => jsonify [("error", "Failed to edit background");
                         ("details", e)] 500).
Proof.
  intros Hget Hdec Hgiven. unfold edit_background. rewrite Hget, Hdec.
  cbv zeta. rewrite <- negb_orb, Hgiven. reflexivity.
Qed.

Lemma resize_image_block {I : Imaging}
      (request : Request) (s : string) (im : Image)
      (width height : option Z) :
  get "image_data" (form request) = Some s -> decode_image s = Some im ->
  read_dimension (get "width" (form request))
    "Width must be a positive integer" "Invalid width parameter"
  = inr width ->
  read_dimension (get "height" (form request))
    "Height must be a positive integer" "Invalid height parameter"
  = inr height ->
  (width, height) <> (None, None) ->
  resize_image request =
    try_except (resize_image_try im width height)
      (fun e => jsonify [("error", "Failed to resize image");
                         ("details", e)] 500).
Proof.
  intros Hget Hdec Hw Hh Hsome. unfold resize_image.
  rewrite Hget, Hdec. cbv zeta. rewrite Hw, Hh.
  destruct width, height; try reflexivity. contradiction.
Qed.

(** C6 (as amended): every response of the three handlers that is not a
    200 is a JSON object with an error key.  A 400 carries nothing else.
    When the try block of a handler raises, the except clause answers 500
    with the handler's error text and, under details, the text of the
    exception caught; when the try block returns, its response is the
    answer, and the 500 it returns when encode_image gave None carries
    only the error key. *)
Theorem error_responses {I : Imaging} (request : Request) :
  (forall handler,
     In handler [remove_background; edit_background; resize_image] ->
     answer_shape (handler request)
     /\ (status (handler request) <> 200 ->
         contains "error" (json (handler request)) = true))
  /\ (forall s im,
        get "image_data" (form request) = Some s ->
        decode_image s = Some im ->
        (forall msg,
           remove_background_try im = Raise msg ->
           remove_background request =
             jsonify [("error", "Failed to remove background");
                      ("details", msg)] 500)
        /\ (forall response,
              remove_background_try im = Return response ->
              remove_background request = response)
        /\ (Py.truthy (get "color" (form request))
            || file_truthy (get "background_image" (files request)) = true ->
            (forall msg,
               edit_background_try im (get "color" (form request))
                 (get "background_image" (files request)) = Raise msg ->
               edit_background request =
                 jsonify [("error", "Failed to edit background");
                          ("details", msg)] 500)
            /\ (forall response,
                  edit_background_try im (get "color" (form request))
                    (get "background_image" (files request))
                  = Return response ->
                  edit_background request = response))
        /\ (forall width height,
              read_dimension (get "width" (form request))
                "Width must be a positive integer" "Invalid width parameter"
              = inr width ->
              read_dimension (get "height" (form request))
                "Height must be a positive integer"
                "Invalid height parameter"
              = inr height ->
              (width, height) <> (None, None) ->
              (forall msg,
                 resize_image_try im width height = Raise msg ->
                 resize_image request =
                   jsonify [("error", "Failed to resize image");
                            ("details", msg)] 500)
              /\ (forall response,
                    resize_image_try im width height = Return response ->
                    resize_image request = response))).
Proof.
  split.
  - intros handler Hin.
    assert (Hshape : answer_shape (handler request)).
    { destruct Hin as [<- | [<- | [<- | []]]].
      - apply remove_background_shape.
      - apply edit_background_shape.
      - apply resize_image_shape. }
    split; [exact Hshape |].
    intros Hne.
    destruct Hshape as [H200 | [[_ [e He]] | [_ [[e [d He]] | [He | He]]]]];
      [contradiction | rewrite He; reflexivity ..].
  - intros s im Hget Hdec. repeat split.
    + intros msg Hraise.
      now rewrite (remove_background_block _ _ _ Hget Hdec), Hraise.
    + intros response Hreturn.
      now rewrite (remove_background_block _ _ _ Hget Hdec), Hreturn.
    + intros msg Hraise.
      now rewrite (edit_background_block _ _ _ Hget Hdec H), Hraise.
    + intros response Hreturn.
      now rewrite (edit_background_block _ _ _ Hget Hdec H), Hreturn.
    + intros msg Hraise.
      now rewrite (resize_image_block _ _ _ _ _ Hget Hdec H H0 H1), Hraise.
    + intros response Hreturn.
      now rewrite (resize_image_block _ _ _ _ _ Hget Hdec H H0 H1), Hreturn.
Qed.

Lemma error_responses_witness :
  let request :=
    Ref.request_for (Ref.solid 2 1 Ref.red) [("color", "#FF0000")]
                    [("background_image", mk_FileStorage "bg.png" [x00; x01])]
  in
  edit_background (I := Ref.imaging) request =
    jsonify [("error", "Failed to edit background");
             ("details", "cannot identify image file")] 500.
Proof.
  refine (proj1
    (proj1 (proj2 (proj2
       (proj2 (error_responses (I := Ref.imaging)
                 (Ref.request_for (Ref.solid 2 1 Ref.red)
                    [("color", "#FF0000")]
                    [("background_image",
                      mk_FileStorage "bg.png" [x00; x01])]))
          (Ref.payload (Ref.solid 2 1 Ref.red)) (Ref.solid 2 1 Ref.red)
          _ _))) _)
    "cannot identify image file" _);
    vm_compute; reflexivity.
Defined.

(** C6 (counterexample): when the encoder fails, resize_image answers 500
    with an error key and no details key. *)
Lemma encode_failure_without_details :
  let request := Ref.request_for (Ref.solid 2 1 Ref.red) [] [] in
  resize_image (I := Ref.failing_encoder) request
  = jsonify [("error", "Failed to encode image")] 500
  /\ get "details" (json (resize_image (I := Ref.failing_encoder) request))
     = None.
Proof. vm_compute. auto. Qed.

(** ** decode_image: when it fails *)

Section Decode.

Context {I : Imaging}.
Hypothesis laws : ImagingLaws I.

(** C7 (as amended): decode_image fails exactly when b64decode raises on
    the string (it is not ASCII, or what is left of it after the
    characters outside the alphabet are dropped does not end on a quad)
    or the decoded bytes cannot be opened as an RGBA image; otherwise it
    returns an image in RGBA mode.  Each handler answers a failure
    with 400. *)
Theorem decode_image_failure (s : string) :
  (decode_image s = None <->
   b64decode s = None
   \/ exists bs, b64decode s = Some bs /\ not_an_image bs)
  /\ (forall im, decode_image s = Some im -> mode im = M_RGBA)
  /\ (forall request,
        get "image_data" (form request) = Some s ->
        decode_image s = None ->
        status (remove_background request) = 400
        /\ status (edit_background request) = 400
        /\ status (resize_image request) = 400).
Proof.
  split; [| split].
  - unfold decode_image, not_an_image, except_None, bind, or_raise.
    destruct (b64decode s) as [bs |]; [| intuition].
    destruct (Image_open bs) as [opened | e] eqn:Hopen.
    + destruct (convert opened M_RGBA) as [im | e] eqn:Hconv.
      * split; [discriminate |].
        intros [H | (bs' & H & Hbad)]; [discriminate |].
        injection H as <-.
        destruct Hbad as [(e & He) | (o & e & Ho & He)]; congruence.
      * split; [| reflexivity]. intros _. right. exists bs.
        split; [reflexivity |]. right. eauto.
    + split; [| reflexivity]. intros _. right. exists bs.
      split; [reflexivity |]. left. eauto.
  - intros im Hdec. apply (decode_image_RGBA laws _ _ Hdec).
  - intros request Hget Hdec.
    unfold remove_background, edit_background, resize_image.
    rewrite Hget, Hdec. auto.
Qed.

End Decode.

Lemma decode_image_failure_witness :
  let request :=
    mk_Request [("image_data", "data:image/png;base64,AAAA")] [] in
  status (remove_background (I := Ref.imaging) request) = 400
  /\ status (edit_background (I := Ref.imaging) request) = 400
  /\ status (resize_image (I := Ref.imaging) request) = 400.
Proof.
  apply (proj2 (proj2 (decode_image_failure (I := Ref.imaging) imaging_laws
                         "data:image/png;base64,AAAA"))
           (mk_Request [("image_data", "data:image/png;base64,AAAA")] []));
    vm_compute; reflexivity.
Defined.

(** C7 (counterexample): a string that is not Base64 text, because it
    starts with an exclamation mark, is decoded all the same: b64decode
    drops the characters outside the alphabet. *)
Lemma decode_image_accepts_stray_characters :
  let im := Ref.solid 2 1 Ref.red in
  let s := ("!" ++ Ref.payload im)%string in
  canonical s = false
  /\ in_alphabet "!"%char = false
  /\ decode_image (I := Ref.imaging) s = Some im.
Proof. vm_compute. auto. Qed.

(** ** Further properties of the handlers *)

(** X1: without an image_data field each of the three handlers answers
    400 with the error text "No image_data provided". *)
Theorem missing_image_data
        {I : Imaging} (handler : Request -> Response) (request : Request) :
  In handler [remove_background; edit_background; resize_image] ->
  get "image_data" (form request) = None ->
  handler request = jsonify [("error", "No image_data provided")] 400.
Proof.
  intros [<- | [<- | [<- | []]]] Hget;
    unfold remove_background, edit_background, resize_image;
    now rewrite Hget.
Qed.

Lemma missing_image_data_witness :
  edit_background (I := Ref.imaging) (mk_Request [("color", "#FF0000")] [])
  = jsonify [("error", "No image_data provided")] 400.
Proof.
  apply (missing_image_data (I := Ref.imaging) edit_background).
  - right. left. reflexivity.
  - reflexivity.
Defined.

(** X2: with a valid image, edit_background answers 400 when the colour
    is absent or empty and no file with a filename is uploaded. *)
Theorem edit_background_needs_a_background
        {I : Imaging} (request : Request) (s : string) (im : Image) :
  get "image_data" (form request) = Some s -> decode_image s = Some im ->
  nonempty (get "color" (form request)) = None ->
  uploaded (get "background_image" (files request)) = None ->
  edit_background request =
    jsonify [("error",
              "Either 'color' or 'background_image' must be provided")] 400.
Proof.
  intros Hget Hdec Hcolour Hfile. unfold edit_background.
  rewrite Hget, Hdec, (uploaded_truthy _ Hfile).
  unfold nonempty in Hcolour.
  destruct (Py.truthy (get "color" (form request))) eqn:Htruthy;
    [| reflexivity].
  destruct (get "color" (form request)); discriminate.
Qed.

Lemma edit_background_needs_a_background_witness :
  edit_background (I := Ref.imaging)
    (Ref.request_for (Ref.solid 2 1 Ref.red) [("color", "")]
       [("background_image", mk_FileStorage "" [x00])])
  = jsonify [("error",
              "Either 'color' or 'background_image' must be provided")] 400.
Proof.
  apply (edit_background_needs_a_background
           (Ref.request_for (Ref.solid 2 1 Ref.red) [("color", "")]
              [("background_image", mk_FileStorage "" [x00])])
           (Ref.payload (Ref.solid 2 1 Ref.red)) (Ref.solid 2 1 Ref.red));
    vm_compute; reflexivity.
Defined.

Section MoreEdit.

Context {I : Imaging}.
Hypothesis laws : ImagingLaws I.

(** X3: with a valid image and no upload, a non-empty colour one of whose
    three two-character slices int(., 16) rejects is answered 400 with the
    error text "Invalid color hex code". *)
Theorem edit_background_invalid_colour
        (request : Request) (s : string) (im : Image) (colour : string) :
  get "image_data" (form request) = Some s -> decode_image s = Some im ->
  get "color" (form request) = Some colour -> colour <> "" ->
  uploaded (get "background_image" (files request)) = None ->
  rgb_color colour = None ->
  edit_background request =
    jsonify [("error", "Invalid color hex code")] 400.
Proof.
  intros Hget Hdec Hcolour Hne Hfile Hrgb.
  destruct (decode_image_RGBA laws _ _ Hdec) as [Hwf Hmode].
  unfold edit_background.
  rewrite Hget, Hdec, Hcolour, Hfile, (uploaded_truthy _ Hfile).
  destruct colour as [| c colour]; [contradiction |].
  cbn [Py.truthy negb andb nonempty].
  rewrite (new_RGBA_well_formed _ _ Hwf), Hrgb. reflexivity.
Qed.

End MoreEdit.

Lemma edit_background_invalid_colour_witness :
  edit_background (I := Ref.imaging)
    (Ref.request_for (Ref.solid 2 1 Ref.red) [("color", "#1234")] [])
  = jsonify [("error", "Invalid color hex code")] 400.
Proof.
  apply (edit_background_invalid_colour imaging_laws
           (Ref.request_for (Ref.solid 2 1 Ref.red) [("color", "#1234")] [])
           (Ref.payload (Ref.solid 2 1 Ref.red)) (Ref.solid 2 1 Ref.red)
           "#1234");
    first [discriminate | vm_compute; reflexivity].
Defined.

(** ** Colours *)

Lemma in_all_chars (c : ascii) : In c Py.all_chars.
Proof.
  unfold Py.all_chars. apply in_map_iff. exists (nat_of_ascii c).
  split; [apply ascii_nat_embedding |].
  apply in_seq. pose proof (nat_ascii_bounded c). lia.
Qed.

Lemma for_all_chars (P : ascii -> bool) :
  forallb P Py.all_chars = true -> forall c, P c = true.
Proof.
  intros H c. rewrite forallb_forall in H. apply H, in_all_chars.
Qed.

(** Two hexadecimal digits are read by int(., 16) as the byte they
    spell. *)
Lemma int_hex_pair (c1 c2 : ascii) :
  Py.is_hex c1 = true -> Py.is_hex c2 = true ->
  Py.int (String c1 (String c2 "")) 16
  = Some (16 * Py.DigitValue c1 + Py.DigitValue c2).
Proof.
  intros H1 H2.
  assert (Hall : forallb (fun a =>
            forallb (fun b =>
              implb (Py.is_hex a && Py.is_hex b)
                match Py.int (String a (String b "")) 16 with
                | Some v => v =? 16 * Py.DigitValue a + Py.DigitValue b
                | None => false
                end) Py.all_chars) Py.all_chars = true)
    by (vm_compute; reflexivity).
  pose proof (for_all_chars _ (for_all_chars _ Hall c1) c2) as H.
  cbv beta in H. rewrite H1, H2 in H. cbn [andb implb] in H.
  destruct (Py.int (String c1 (String c2 "")) 16) as [v |];
    [| discriminate].
  apply Z.eqb_eq in H. now subst.
Qed.

Lemma hex_not_hash (c : ascii) :
  Py.is_hex c = true -> Ascii.eqb c "#"%char = false.
Proof.
  intros H.
  assert (Hall : forallb (fun a =>
            implb (Py.is_hex a) (negb (Ascii.eqb a "#"%char)))
            Py.all_chars = true) by (vm_compute; reflexivity).
  pose proof (for_all_chars _ Hall c) as Hc. cbv beta in Hc.
  rewrite H in Hc. now apply negb_true_iff.
Qed.

Lemma hex_value_range (c : ascii) :
  Py.is_hex c = true -> 0 <= Py.DigitValue c < 16.
Proof.
  intros H.
  assert (Hall : forallb (fun a =>
            implb (Py.is_hex a)
                  ((0 <=? Py.DigitValue a) && (Py.DigitValue a <? 16)))
            Py.all_chars = true) by (vm_compute; reflexivity).
  pose proof (for_all_chars _ Hall c) as Hc. cbv beta in Hc.
  rewrite H in Hc. cbn [implb] in Hc.
  apply andb_prop in Hc as [Hlo Hhi].
  apply Z.leb_le in Hlo. apply Z.ltb_lt in Hhi. lia.
Qed.

(** X4: a colour of six hexadecimal digits, with or without a leading
    hash sign, is parsed into the three bytes it spells and alpha 255;
    each component lies in 0..255. *)
Theorem rgb_color_six_hex_digits (c1 c2 c3 c4 c5 c6 : ascii) :
  forallb Py.is_hex [c1; c2; c3; c4; c5; c6] = true ->
  let hex :=
    String c1 (String c2 (String c3 (String c4 (String c5 (String c6 "")))))
  in
  let v (a b : ascii) := 16 * Py.DigitValue a + Py.DigitValue b in
  rgb_color hex = Some (v c1 c2, v c3 c4, v c5 c6, 255)
  /\ rgb_color (String "#" hex) = Some (v c1 c2, v c3 c4, v c5 c6, 255)
  /\ 0 <= v c1 c2 <= 255 /\ 0 <= v c3 c4 <= 255 /\ 0 <= v c5 c6 <= 255.
Proof.
  cbn [forallb]. intros H.
  repeat (apply andb_prop in H; destruct H as [? H]).
  assert (Hparse :
    rgb_color
      (String c1 (String c2 (String c3 (String c4 (String c5 (String c6 ""))))))
    = Some (16 * Py.DigitValue c1 + Py.DigitValue c2,
            16 * Py.DigitValue c3 + Py.DigitValue c4,
            16 * Py.DigitValue c5 + Py.DigitValue c6, 255)).
  { unfold rgb_color. cbn [Py.lstrip]. rewrite (hex_not_hash c1) by assumption.
    change (Py.slice (String c1 (String c2 (String c3 (String c4
              (String c5 (String c6 "")))))) 0 2)
      with (String c1 (String c2 "")).
    change (Py.slice (String c1 (String c2 (String c3 (String c4
              (String c5 (String c6 "")))))) 2 4)
      with (String c3 (String c4 "")).
    change (Py.slice (String c1 (String c2 (String c3 (String c4
              (String c5 (String c6 "")))))) 4 6)
      with (String c5 (String c6 "")).
    now rewrite !int_hex_pair by assumption. }
  cbv zeta. split; [exact Hparse |]. split.
  - unfold rgb_color in *. cbn [Py.lstrip] in *.
    change (Ascii.eqb "#" "#") with true. cbv iota. exact Hparse.
  - pose proof (hex_value_range c1 ltac:(assumption)).
    pose proof (hex_value_range c2 ltac:(assumption)).
    pose proof (hex_value_range c3 ltac:(assumption)).
    pose proof (hex_value_range c4 ltac:(assumption)).
    pose proof (hex_value_range c5 ltac:(assumption)).
    pose proof (hex_value_range c6 ltac:(assumption)).
    lia.
Qed.

Lemma rgb_color_six_hex_digits_witness :
  rgb_color "1aB2c3" = Some (26, 178, 195, 255)
  /\ rgb_color "#1aB2c3" = Some (26, 178, 195, 255)
  /\ 0 <= 26 <= 255 /\ 0 <= 178 <= 255 /\ 0 <= 195 <= 255.
Proof.
  apply (rgb_color_six_hex_digits "1" "a" "B" "2" "c" "3"). reflexivity.
Defined.

(** ** Exceptions caught by the handlers *)

(** X5: with a valid image, an exception of the background-removal model
    is answered 500 with the text of the exception under details. *)
Theorem remove_background_exception
        {I : Imaging} (request : Request) (s : string) (im : Image)
        (msg : string) :
  get "image_data" (form request) = Some s -> decode_image s = Some im ->
  remove im = Raise msg ->
  remove_background request =
    jsonify [("error", "Failed to remove background"); ("details", msg)] 500.
Proof.
  intros Hget Hdec Hraise. unfold remove_background.
  now rewrite Hget, Hdec, Hraise.
Qed.

Lemma remove_background_exception_witness :
  remove_background (I := Ref.failing_model)
    (Ref.request_for (Ref.solid 2 1 Ref.red) [] [])
  = jsonify [("error", "Failed to remove background");
             ("details", "model file not found")] 500.
Proof.
  apply (remove_background_exception (I := Ref.failing_model)
           (Ref.request_for (Ref.solid 2 1 Ref.red) [] [])
           (Ref.payload (Ref.solid 2 1 Ref.red)) (Ref.solid 2 1 Ref.red));
    vm_compute; reflexivity.
Defined.

Section MoreResize.

Context {I : Imaging}.
Hypothesis laws : ImagingLaws I.

(** X6: with a valid image, a positive height and no width, a successful
    response carries an image of exactly the requested height whose width
    is int(height * (original_width / original_height)) in binary64,
    truncated toward zero. *)
Theorem resize_height_only
        (request : Request) (s : string) (im : Image)
        (height_str : string) (h : Z) :
  get "image_data" (form request) = Some s -> decode_image s = Some im ->
  get "width" (form request) = None ->
  get "height" (form request) = Some height_str ->
  Py.int height_str 10 = Some h -> 0 < h ->
  status (resize_image request) = 200 ->
  exists new_width out text,
    scaled h (width im) (height im) = Return new_width
    /\ resize_LANCZOS im (new_width, h) = Return out
    /\ size out = (new_width, h)
    /\ json (resize_image request) =
         [("image_data", (DATA_URI_PREFIX ++ text)%string);
          ("message", "Image resized successfully!")]
    /\ decode_image text = Some out.
Proof.
  intros Hget Hdec Hw Hh Hhi Hhp.
  destruct (decode_image_RGBA laws _ _ Hdec) as [Hwf Hmode].
  rewrite (resize_image_decoded _ _ _ Hget Hdec), Hw, Hh.
  rewrite (read_dimension_positive _ _ _ _ Hhi Hhp), read_dimension_absent.
  unfold resize_to, nonzero, try_except, width, height.
  destruct (h =? 0) eqn:Eh; [apply Z.eqb_eq in Eh; lia |].
  destruct (size im) as [original_width original_height] eqn:Hsize.
  cbn [fst snd].
  destruct (scaled h original_width original_height) as [new_width | e]
    eqn:Hscaled; cbn [bind]; [| discriminate].
  destruct (resize_LANCZOS im (new_width, h)) as [out | e] eqn:Hres;
    cbn [bind]; [| discriminate].
  intros Hst. exists new_width, out.
  match type of Hst with status ?r = _ => set (response := r) in * end.
  destruct (resized_response laws im out response Hwf Hmode _ Hres)
    as (Hsz & text & Hjson & Hdec').
  - subst response. destruct (encode_image out); reflexivity.
  - exact Hst.
  - exists text. repeat split; auto.
Qed.

(** X7: with a valid image of positive height, a positive width and no
    height, a computed height of zero is refused by the resampler and the
    handler answers 500 with the exception text under details. *)
Theorem resize_to_nothing
        (request : Request) (s : string) (im : Image)
        (width_str : string) (w : Z) :
  get "image_data" (form request) = Some s -> decode_image s = Some im ->
  get "width" (form request) = Some width_str ->
  get "height" (form request) = None ->
  Py.int width_str 10 = Some w -> 0 < w ->
  0 < height im ->
  scaled w (height im) (width im) = Return 0 ->
  exists msg,
    resize_image request =
      jsonify [("error", "Failed to resize image"); ("details", msg)] 500.
Proof.
  intros Hget Hdec Hw Hh Hwi Hwp Hpos Hscaled.
  rewrite (resize_image_decoded _ _ _ Hget Hdec), Hw, Hh.
  rewrite (read_dimension_positive _ _ _ _ Hwi Hwp), read_dimension_absent.
  unfold resize_to, nonzero, try_except, width, height in *.
  destruct (w =? 0) eqn:Ew; [apply Z.eqb_eq in Ew; lia |].
  destruct (size im) as [original_width original_height] eqn:Hsize.
  cbn [fst snd] in *. rewrite Hscaled. cbn [bind].
  destruct (resize_LANCZOS im (w, 0)) as [out | msg] eqn:Hres; cbn [bind].
  - exfalso.
    assert (Hne : size im <> (w, 0)) by (rewrite Hsize; intros [= _ E]; lia).
    destruct (resize_positive I laws _ _ _ Hres Hne) as [_ Hbad].
    cbn [snd] in Hbad. lia.
  - eauto.
Qed.

End MoreResize.

Lemma resize_height_only_witness :
  let im := Ref.solid 4 3 Ref.red in
  let request := Ref.request_for im [("height", "6")] [] in
  exists new_width out text,
    scaled 6 (width im) (height im) = Return new_width
    /\ resize_LANCZOS (Imaging := Ref.imaging) im (new_width, 6) = Return out
    /\ size out = (new_width, 6)
    /\ json (resize_image (I := Ref.imaging) request) =
         [("image_data", (DATA_URI_PREFIX ++ text)%string);
          ("message", "Image resized successfully!")]
    /\ decode_image (I := Ref.imaging) text = Some out.
Proof.
  apply (resize_height_only imaging_laws
           (Ref.request_for (Ref.solid 4 3 Ref.red) [("height", "6")] [])
           (Ref.payload (Ref.solid 4 3 Ref.red)) (Ref.solid 4 3 Ref.red)
           "6" 6); vm_compute; reflexivity.
Defined.

Lemma resize_to_nothing_witness :
  exists msg,
    resize_image (I := Ref.imaging)
      (Ref.request_for (Ref.solid 4 3 Ref.red) [("width", "1")] [])
    = jsonify [("error", "Failed to resize image"); ("details", msg)] 500.
Proof.
  apply (resize_to_nothing imaging_laws
           (Ref.request_for (Ref.solid 4 3 Ref.red) [("width", "1")] [])
           (Ref.payload (Ref.solid 4 3 Ref.red)) (Ref.solid 4 3 Ref.red)
           "1" 1); vm_compute; reflexivity.
Defined.

(** ** Base64 text *)

Lemma in_alphabet_b2a (q : Z) : 0 <= q < 64 -> in_alphabet (b2a q) = true.
Proof.
  intros Hq. unfold in_alphabet.
  rewrite b2a_not_pad, a2b_b2a by exact Hq.
  cbn [negb andb]. apply Z.ltb_lt. lia.
Qed.

Lemma b2a_loop_canonical (bs : list byte) :
  forall lc, canonical_quads (b2a_loop bs lc 0) = true.
Proof.
  induction bs as [| x | x y | x y z bs IH] using list_ind3; intros lc.
  - reflexivity.
  - rewrite b2a_loop_one. cbn [canonical_quads].
    rewrite !in_alphabet_b2a by auto using sextet1_range, sextet2_range.
    rewrite Ascii.eqb_refl. cbn [andb]. apply orb_true_r.
  - rewrite b2a_loop_two. cbn [canonical_quads].
    rewrite !in_alphabet_b2a
      by auto using sextet1_range, sextet2_range, sextet3_range.
    rewrite Ascii.eqb_refl. cbn [andb]. now rewrite orb_true_r.
  - destruct (b2a_loop_three x y z bs lc) as [lc' ->].
    specialize (IH lc').
    remember (b2a_loop bs lc' 0) as rest eqn:Hrest.
    cbn [canonical_quads].
    rewrite !in_alphabet_b2a
      by auto using sextet1_range, sextet2_range, sextet3_range,
                    sextet4_range.
    destruct rest; cbn [andb orb]; [reflexivity | exact IH].
Qed.

(** X8: the text that b64encode produces is Base64 text in the sense of
    RFC 4648, and b64decode gives back the bytes it was made from. *)
Theorem base64_round_trip (bs : list byte) :
  canonical (b64encode bs) = true /\ b64decode (b64encode bs) = Some bs.
Proof.
  split.
  - unfold canonical, b64encode.
    rewrite list_ascii_of_string_of_list_ascii. apply b2a_loop_canonical.
  - unfold b64decode, b64encode.
    rewrite list_ascii_of_string_of_list_ascii, b2a_loop_is_ascii.
    apply a2b_b2a_loop.
Qed.

(** ** Characters after the sixth *)

Lemma substring_app (s t : string) :
  forall i n,
    (i + n <= String.length s)%nat ->
    substring i n (s ++ t) = substring i n s.
Proof.
  induction s as [| c s IH]; intros i n Hlen; cbn [String.length] in Hlen.
  - assert (i = 0%nat) by lia. assert (n = 0%nat) by lia. subst.
    destruct t; reflexivity.
  - destruct i as [| i]; cbn [append substring].
    + destruct n as [| n]; [reflexivity |].
      f_equal. apply IH. lia.
    + apply IH. lia.
Qed.

Lemma length_append (s t : string) :
  String.length (s ++ t) = (String.length s + String.length t)%nat.
Proof. induction s as [| c s IH]; cbn; [reflexivity | now rewrite IH]. Qed.

Lemma slice_app (s t : string) (i j : nat) :
  (i <= j)%nat -> (j <= String.length s)%nat ->
  Py.slice (s ++ t) i j = Py.slice s i j.
Proof.
  intros Hij Hj. unfold Py.slice.
  rewrite length_append.
  rewrite !Nat.min_l by lia. apply substring_app. lia.
Qed.

Lemma lstrip_app (c : ascii) (s t : string) :
  Py.lstrip c s <> "" -> Py.lstrip c (s ++ t) = (Py.lstrip c s ++ t)%string.
Proof.
  induction s as [| a s IH]; cbn [Py.lstrip append]; intros Hne.
  - contradiction.
  - destruct (Ascii.eqb a c); [apply IH; exact Hne | reflexivity].
Qed.

(** X9: rgb_color reads the first six characters after the hash signs and
    nothing else: whatever is appended to a colour of at least six such
    characters leaves the result unchanged. *)
Theorem rgb_color_reads_six_characters (colour tail : string) :
  (6 <= String.length (Py.lstrip "#"%char colour))%nat ->
  rgb_color (colour ++ tail) = rgb_color colour.
Proof.
  intros Hlen. unfold rgb_color.
  rewrite lstrip_app
    by (destruct (Py.lstrip "#"%char colour);
        [cbn in Hlen; lia | discriminate]).
  rewrite !slice_app by lia. reflexivity.
Qed.

Lemma rgb_color_reads_six_characters_witness :
  rgb_color ("#FF0000" ++ "ZZ") = rgb_color "#FF0000".
Proof.
  apply (rgb_color_reads_six_characters "#FF0000" "ZZ").
  apply Nat.leb_le. reflexivity.
Defined.

(** ** Feeding a response back *)

Lemma resize_to_ok {I : Imaging} (im : Image) (width height : option Z) :
  status (resize_to im width height) = 200 ->
  exists out b64 m,
    encode_image out = Some b64
    /\ json (resize_to im width height) = [("image_data", b64); ("message", m)].
Proof.
  unfold resize_to, try_except, bind.
  repeat match goal with
         | |- context [match ?x with _ => _ end] =>
             lazymatch x with
             | context [match _ with _ => _ end] => fail
             | _ => destruct x eqn:?
             end
         end;
    cbn [status json jsonify]; intros H; try discriminate; eauto.
Qed.

Lemma handler_ok {I : Imaging} (handler : Request -> Response)
      (request : Request) :
  In handler [remove_background; edit_background; resize_image] ->
  status (handler request) = 200 ->
  exists out b64 m,
    encode_image out = Some b64
    /\ json (handler request) = [("image_data", b64); ("message", m)].
Proof.
  intros [<- | [<- | [<- | []]]].
  - unfold remove_background, try_except, bind.
    repeat match goal with
           | |- context [match ?x with _ => _ end] =>
               lazymatch x with
               | context [match _ with _ => _ end] => fail
               | _ => destruct x eqn:?
               end
           end;
      cbn [status json jsonify]; intros H; try discriminate; eauto.
  - unfold edit_background, try_except, bind.
    repeat match goal with
           | |- context [match ?x with _ => _ end] =>
               lazymatch x with
               | context [match _ with _ => _ end] => fail
               | _ => destruct x eqn:?
               end
           end;
      cbn [status json jsonify]; intros H; try discriminate; eauto.
  - unfold resize_image.
    destruct (get "image_data" (form request)); [| discriminate].
    destruct (decode_image _); [| discriminate].
    pose proof (read_dimension_cases (get "width" (form request))
                  "Width must be a positive integer"
                  "Invalid width parameter") as Hw.
    pose proof (read_dimension_cases (get "height" (form request))
                  "Height must be a positive integer"
                  "Invalid height parameter") as Hh.
    destruct (read_dimension (get "width" (form request)) _ _) as [r | width].
    + destruct Hw as [Hw _]. intros H. rewrite H in Hw. discriminate.
    + destruct (read_dimension (get "height" (form request)) _ _)
        as [r | height].
      * destruct Hh as [Hh _]. intros H. rewrite H in Hh. discriminate.
      * apply resize_to_ok.
Qed.

(** X10: the image_data of a successful response of any handler, sent back
    unchanged as the image_data of a new request, is refused with 400 by
    every handler: the text still carries the data-URI marker. *)
Theorem response_image_is_refused
        {I : Imaging} (first next : Request -> Response)
        (request request' : Request) (b64 : string) :
  In first [remove_background; edit_background; resize_image] ->
  In next [remove_background; edit_background; resize_image] ->
  status (first request) = 200 ->
  get "image_data" (json (first request)) = Some b64 ->
  get "image_data" (form request') = Some b64 ->
  status (next request') = 400.
Proof.
  intros Hfirst Hnext Hok Hjson Hform.
  destruct (handler_ok first request Hfirst Hok)
    as (out & b64' & m & Henc & Hshape).
  rewrite Hshape in Hjson. cbn in Hjson. injection Hjson as ->.
  apply encode_image_inv in Henc as (bs & _ & ->).
  assert (Hdec : decode_image (DATA_URI_PREFIX ++ b64encode bs) = None).
  { unfold decode_image. now rewrite b64decode_data_uri. }
  destruct Hnext as [<- | [<- | [<- | []]]];
    unfold remove_background, edit_background, resize_image;
    now rewrite Hform, Hdec.
Qed.

Lemma response_image_is_refused_witness :
  let im := Ref.solid 2 1 Ref.red in
  status (edit_background (I := Ref.imaging)
            (mk_Request
               [("image_data", (DATA_URI_PREFIX ++ Ref.payload im)%string);
                ("color", "#FF0000")] []))
  = 400.
Proof.
  apply (response_image_is_refused (I := Ref.imaging)
           (resize_image (I := Ref.imaging))
           (edit_background (I := Ref.imaging))
           (Ref.request_for (Ref.solid 2 1 Ref.red) [] [])
           (mk_Request
              [("image_data",
                (DATA_URI_PREFIX ++ Ref.payload (Ref.solid 2 1 Ref.red))%string);
               ("color", "#FF0000")] [])
           (DATA_URI_PREFIX ++ Ref.payload (Ref.solid 2 1 Ref.red))%string);
    [ right; right; left; reflexivity
    | right; left; reflexivity
    | vm_compute; reflexivity .. ].
Defined.
